(** * Inventory tracker (app.py): product store, stock adjustment,
    CSV export and snapshot comparison.

    The Flask handlers of [app.py] are embedded as functions that take the
    state they touch (the product table, the files of the working
    directory, the [exports] directory) and return the response together
    with the new state.  HTML rendering is not modelled: a handler that
    renders a page returns [Page]. *)

From Stdlib Require Import ZArith String Ascii List DecimalString DecimalPos.
From Stdlib Require Import Floats.PrimFloat.
From stdpp Require Import gmap strings list sorting.

Local Open Scope Z_scope.
Local Open Scope string_scope.
Local Open Scope list_scope.

(** ** Python built-ins used by the handlers *)

(** Strings are byte strings, the UTF-8 form of Python's text.

    [str.strip()] and [int(s)] are Python's own: they know the white
    space and the decimal digits of all of Unicode, and [int] bounds the
    number of digits it reads.  The handlers are stated over any such
    pair of functions; [None] stands for [ValueError]. *)
Class PyStr := {
  strip : string → string;
  int_of_str : string → option Z
}.

(** The two built-ins on ASCII text.  [str.strip()] removes TAB, LF, VT,
    FF, CR, FS, GS, RS, US and SPACE at both ends; [int] skips TAB, LF,
    VT, FF, CR and SPACE only. *)
Definition isspace (c : ascii) : bool :=
  let n := nat_of_ascii c in
  ((9 <=? n)%nat && (n <=? 13)%nat) || ((28 <=? n)%nat && (n <=? 32)%nat).

Definition isspace_int (c : ascii) : bool :=
  let n := nat_of_ascii c in
  ((9 <=? n)%nat && (n <=? 13)%nat) || (n =? 32)%nat.

Fixpoint lstrip (space : ascii → bool) (s : string) : string :=
  match s with
  | String c s' => if space c then lstrip space s' else s
  | EmptyString => EmptyString
  end.

Fixpoint rstrip (space : ascii → bool) (s : string) : string :=
  match s with
  | String c s' =>
      match rstrip space s' with
      | EmptyString => if space c then EmptyString else String c EmptyString
      | t => String c t
      end
  | EmptyString => EmptyString
  end.

Definition ascii_strip (s : string) : string :=
  rstrip isspace (lstrip isspace s).

(** [s.endswith(suffix)] *)
Definition endswith (s suffix : string) : bool :=
  let n := String.length s in
  let m := String.length suffix in
  (m <=? n)%nat && String.eqb (substring (n - m) m s) suffix.

(** [str(n)] for an [int] *)
Definition str_int (n : Z) : string := NilZero.string_of_int (Z.to_int n).

Definition isdigit (c : ascii) : bool :=
  let n := nat_of_ascii c in (48 <=? n)%nat && (n <=? 57)%nat.

Definition digit_value (c : ascii) : Z := Z.of_nat (nat_of_ascii c) - 48.

(** The digits of an [int] literal: one or more decimal digits, single
    underscores allowed between two digits.  [after_digit] tells whether
    the character just read was a digit. *)
Fixpoint int_digits (acc : Z) (after_digit : bool) (s : string) : option Z :=
  match s with
  | EmptyString => if after_digit then Some acc else None
  | String c s' =>
      if isdigit c then int_digits (10 * acc + digit_value c) true s'
      else if Ascii.eqb c "_"%char && after_digit then int_digits acc false s'
      else None
  end.

(** [int(s)] for an ASCII string [s] *)
Definition ascii_int_of_str (s : string) : option Z :=
  match rstrip isspace_int (lstrip isspace_int s) with
  | String c t =>
      if Ascii.eqb c "-"%char then Z.opp <$> int_digits 0 false t
      else if Ascii.eqb c "+"%char then int_digits 0 false t
      else int_digits 0 false (String c t)
  | EmptyString => None
  end.

(** Truth value of a string and of a list: non-empty. *)
Definition truthy_str (s : string) : bool :=
  match s with EmptyString => false | _ => true end.

Definition truthy_list {A} (l : list A) : bool :=
  match l with [] => false | _ => true end.

(** [any(row)] on a list of strings *)
Definition any (l : list string) : bool := existsb truthy_str l.

(** [int(field or default)] where [field] is [request.form.get(...)] *)
Definition int_or `{PyStr} (field : option string) (default : Z) : option Z :=
  match field with
  | Some s => if truthy_str s then int_of_str s else Some default
  | None => Some default
  end.

(** Conversions between text and binary64 floats are Python's own
    ([float(s)] and [str(x)]); the handlers only pass their results on. *)
Class PyFloat := {
  float_of_str : string → option float;
  str_float : float → string
}.

(** [float(field or 0)] *)
Definition float_or_0 `{PyFloat} (field : option string) : option float :=
  match field with
  | Some s => if truthy_str s then float_of_str s else Some 0%float
  | None => Some 0%float
  end.

(** ** The csv module, as far as the handlers use it *)

Abbreviation row := (list string).

Definition CRLF : string := String "013"%char (String "010"%char EmptyString).
Definition DQUOTE : string := String "034"%char EmptyString.

Fixpoint string_existsb (f : ascii → bool) (s : string) : bool :=
  match s with
  | EmptyString => false
  | String c s' => f c || string_existsb f s'
  end.

Fixpoint double_quotes (s : string) : string :=
  match s with
  | EmptyString => EmptyString
  | String c s' =>
      if Ascii.eqb c "034"%char then String c (String c (double_quotes s'))
      else String c (double_quotes s')
  end.

(** Default dialect, QUOTE_MINIMAL: a field is quoted when it holds the
    delimiter, the quote character or a character of the line terminator. *)
Definition needs_quotes (s : string) : bool :=
  string_existsb (λ c, Ascii.eqb c ","%char || Ascii.eqb c "034"%char
                       || Ascii.eqb c "013"%char || Ascii.eqb c "010"%char) s.

Definition csv_field (s : string) : string :=
  if needs_quotes s then DQUOTE +:+ double_quotes s +:+ DQUOTE else s.

(** [writer.writerow(r)]: the text appended to the output. *)
Definition writerow (r : row) : string :=
  match r with
  | [EmptyString] => DQUOTE +:+ DQUOTE +:+ CRLF
  | _ => String.concat "," (csv_field <$> r) +:+ CRLF
  end.

Definition writerows (rows : list row) : string :=
  String.concat "" (writerow <$> rows).

Definition starts_with_LF (s : string) : bool :=
  match s with
  | String c _ => Ascii.eqb c "010"%char
  | EmptyString => false
  end.

(** Reading a file in text mode turns CR LF and CR into LF. *)
Fixpoint universal_newlines (s : string) : string :=
  match s with
  | EmptyString => EmptyString
  | String c s' =>
      if Ascii.eqb c "013"%char then
        if starts_with_LF s' then universal_newlines s'
        else String "010"%char (universal_newlines s')
      else String c (universal_newlines s')
  end.

(** ** Row-level comparison ([download_latest_csv]) *)

Definition COMPARE_HEADER : row :=
  ["Previous SKU"; "Previous Name"; "Previous Stock"; "Previous Price";
   "Current SKU"; "Current Name"; "Current Stock"; "Current Price";
   "Status"].

(** The placeholder [["", "", "", ""]] used where a file has no row [i]. *)
Definition EMPTY_ROW : row := [""; ""; ""; ""].

(** [data[i] if i < len(data) else ["", "", "", ""]] *)
Definition row_at (data : list row) (i : nat) : row :=
  match data !! i with
  | Some r => r
  | None => EMPTY_ROW
  end.

(** The [status] computed in the loop body for one pair of rows. *)
Definition row_status (prev_row curr_row : row) : string :=
  if truthy_list prev_row && truthy_list curr_row
     && bool_decide (4 ≤ length prev_row)%nat
     && bool_decide (4 ≤ length curr_row)%nat then
    if bool_decide (prev_row ≠ curr_row) then
      if bool_decide (prev_row !! 2%nat ≠ curr_row !! 2%nat)
         || bool_decide (prev_row !! 3%nat ≠ curr_row !! 3%nat)
      then "CHANGED" else "UPDATED"
    else "UNCHANGED"
  else if any curr_row then "NEW"
  else if any prev_row then "REMOVED"
  else "".

(** The row written for index [i]: [prev_row + curr_row + [status]]. *)
Definition compare_row (previous_data current_data : list row) (i : nat) : row :=
  let prev_row := row_at previous_data i in
  let curr_row := row_at current_data i in
  prev_row ++ curr_row ++ [row_status prev_row curr_row].

(** The rows written by the loop [for i in range(max_rows)]. *)
Definition compare_rows (previous_data current_data : list row) : list row :=
  let max_rows := Nat.max (length previous_data) (length current_data) in
  compare_row previous_data current_data <$> seq 0 max_rows.

(** The [exports] directory: its entries in the order [os.listdir] returns
    them, each file given by the records [csv.reader] yields for it. *)
Abbreviation directory := (list (string * list row)).

(** [sorted([f for f in os.listdir(export_dir) if f.endswith(".csv")],
    reverse=True)] *)
Definition csv_files (export_dir : directory) : list string :=
  merge_sort (λ a b, String.leb b a)
    (filter (λ f, endswith f ".csv" = true) (fst <$> export_dir)).

(** [list(csv.reader(open(os.path.join(export_dir, f))))]; [None] when
    there is no such file. *)
Definition read_rows (export_dir : directory) (f : string) : option (list row) :=
  snd <$> find (λ e, String.eqb (fst e) f) export_dir.

(** [current_data] and [previous_data] as loaded from the two newest
    files; a list stays [[]] when its file does not exist. *)
Definition load_data (export_dir : directory) (k : nat) : option (list row) :=
  match csv_files export_dir !! k with
  | Some f => read_rows export_dir f
  | None => Some []
  end.

(** The table written to the response: header, then one row per index. *)
Definition comparison_table (export_dir : directory) : option (list row) :=
  current_data ← load_data export_dir 0;
  previous_data ← load_data export_dir 1;
  Some (COMPARE_HEADER :: compare_rows previous_data current_data).

(** Body of the [compare_inventory.csv] attachment. *)
Definition download_latest_csv (export_dir : directory) : option string :=
  writerows <$> comparison_table export_dir.

(** ** The product table *)

Module Product.
Record t := mk {
  id : Z;
  sku : string;
  name : string;
  description : option string;
  price : float;
  stock : Z;
  reorder_threshold : Z
}.
End Product.

(** The table holds its rows in insertion order, which is the order of
    [Product.query.all()].  Integers are Python's; the range of the
    store's integers is tested where values are written. *)
Abbreviation database := (list Product.t).

(** [p.stock = v] *)
Definition set_stock (v : Z) (p : Product.t) : Product.t :=
  Product.mk (Product.id p) (Product.sku p) (Product.name p)
    (Product.description p) (Product.price p) v (Product.reorder_threshold p).

(** The row that [Product.query.get_or_404(product_id)] returns; for
    [None] see [no_such_product]. *)
Definition get_or_404 (db : database) (product_id : Z) : option Product.t :=
  find (λ p, bool_decide (Product.id p = product_id)) db.

(** SQLite stores integers of 64 bits; an [int] outside that range
    cannot be bound to a statement ([OverflowError]). *)
Definition sqlite_integer (n : Z) : bool :=
  ((- 2 ^ 63 <=? n) && (n <? 2 ^ 63))%Z.

(** The key the store gives to the next inserted row: one more than the
    largest key in use (as long as that is a 64-bit integer). *)
Definition next_id (db : database) : Z :=
  1 + foldr Z.max 0 (Product.id <$> db).

(** [unique=True] on [sku]: does a row other than [self_id] hold [s]? *)
Definition sku_conflict (db : database) (self_id : Z) (s : string) : bool :=
  existsb (λ q, bool_decide (Product.id q ≠ self_id)
                && bool_decide (Product.sku q = s)) db.

(** The table after the row with key [p.id] was overwritten by [p].  A
    [db.session.commit()] after only [stock] was set writes that column
    alone and involves no constraint but the range of the integer. *)
Definition store_row (p : Product.t) (db : database) : database :=
  (λ q, if bool_decide (Product.id q = Product.id p) then p else q) <$> db.

(** The two exceptions of a [db.session.commit()]. *)
Inductive commit_error := IntegrityError | OverflowError.

(** What stops the row [p] from being written: an integer that does not
    fit ([OverflowError], raised when the values are bound), else a price
    that is NaN (bound as NULL, against [nullable=False]) or a [sku] held
    by another row ([IntegrityError]). *)
Definition check_row (db : database) (p : Product.t) : option commit_error :=
  if negb (sqlite_integer (Product.stock p)
           && sqlite_integer (Product.reorder_threshold p))
  then Some OverflowError
  else if PrimFloat.is_nan (Product.price p)
          || sku_conflict db (Product.id p) (Product.sku p)
  then Some IntegrityError
  else None.

(** [db.session.add(prod); db.session.commit()] *)
Definition insert_commit (prod : Product.t) (db : database)
  : commit_error + database :=
  match check_row db prod with
  | Some e => inl e
  | None => inr (db ++ [prod])
  end.

(** [db.session.commit()] after the attributes of row [p.id] were set. *)
Definition update_commit (p : Product.t) (db : database)
  : commit_error + database :=
  match check_row db p with
  | Some e => inl e
  | None => inr (store_row p db)
  end.

(** [db.session.delete(p); db.session.commit()] *)
Definition delete_commit (p : Product.t) (db : database) : database :=
  filter (λ q, Product.id q ≠ Product.id p) db.

Definition sample : list Product.t :=
  [ Product.mk 1 "DBR-001" "Espresso Beans 250g" (Some "Dark roast") 250%float 20 5;
    Product.mk 2 "DBR-002" "Milk (1L)" (Some "Fresh milk") 80%float 10 3;
    Product.mk 3 "DBR-003" "Cup (12oz)" (Some "Disposable cup") 2.5%float 200 50 ].

(** [init_db()]: fills an empty table with the sample rows. *)
Definition init_db (db : database) : database :=
  if bool_decide (length db = 0%nat) then sample else db.

(** ** Handlers of the product routes *)

Inductive http_method := GET | POST.

Inductive response :=
| Redirect (endpoint : string) (flashed : string)
| Page
| NotFound
| InternalServerError.

(** The answer of [get_or_404] when no row has the key: the 404, or, for
    a key beyond SQLite's integers, the [OverflowError] raised when the
    key is bound, which no handler catches.  Stored keys fit, so the
    range matters only when no row is found; the [int] converter of the
    routes passes no negative key. *)
Definition no_such_product (product_id : Z) : response :=
  if (product_id <? 2 ^ 63)%Z then NotFound else InternalServerError.

(** [request.form]: [form !! k] is [request.form.get(k)]. *)
Abbreviation form_data := (gmap string string).

(** The values read from the form by [add_product] and [edit_product];
    [None] when an expression raises ([None.strip()], [int], [float]). *)
Definition product_fields `{PyStr} `{PyFloat} (form : form_data)
  : option (string * string * string * float * Z * Z) :=
  sku ← strip <$> form !! "sku";
  name ← strip <$> form !! "name";
  desc ← strip <$> form !! "description";
  price ← float_or_0 (form !! "price");
  stock ← int_or (form !! "stock") 0;
  thresh ← int_or (form !! "reorder_threshold") 5;
  Some (sku, name, desc, price, stock, thresh).

Definition add_product `{PyStr} `{PyFloat} (method : http_method) (form : form_data)
    (db : database) : response * database :=
  match method with
  | POST =>
      match product_fields form with
      | Some (sku, name, desc, price, stock, thresh) =>
          let prod := Product.mk (next_id db) sku name (Some desc) price stock thresh in
          match insert_commit prod db with
          | inr db' => (Redirect "list_products" "Product added.", db')
          | inl IntegrityError =>
              (Redirect "add_product" "SKU must be unique. Choose a different SKU.", db)
          | inl OverflowError => (InternalServerError, db)
          end
      | None => (InternalServerError, db)
      end
  | GET => (Page, db)
  end.

Definition edit_product `{PyStr} `{PyFloat} (product_id : Z) (method : http_method)
    (form : form_data) (db : database) : response * database :=
  match get_or_404 db product_id with
  | None => (no_such_product product_id, db)
  | Some p =>
      match method with
      | POST =>
          match product_fields form with
          | Some (sku, name, desc, price, stock, thresh) =>
              let p' := Product.mk (Product.id p) sku name (Some desc) price stock thresh in
              match update_commit p' db with
              | inr db' => (Redirect "list_products" "Product updated.", db')
              | inl IntegrityError => (Redirect "edit_product" "SKU must be unique.", db)
              | inl OverflowError => (InternalServerError, db)
              end
          | None => (InternalServerError, db)
          end
      | GET => (Page, db)
      end
  end.

Definition delete_product (product_id : Z) (db : database) : response * database :=
  match get_or_404 db product_id with
  | None => (no_such_product product_id, db)
  | Some p => (Redirect "list_products" "Product deleted.", delete_commit p db)
  end.

Definition adjust_stock `{PyStr} (product_id : Z) (method : http_method)
    (form : form_data) (db : database) : response * database :=
  match get_or_404 db product_id with
  | None => (no_such_product product_id, db)
  | Some p =>
      match method with
      | POST =>
          match int_or (form !! "adjust") 0 with
          | Some adj =>
              let reason := default "" (form !! "reason") in
              let p' := set_stock (Z.max 0 (Product.stock p + adj)) p in
              if sqlite_integer (Product.stock p') then
                (Redirect "list_products"
                   ("Stock adjusted by " +:+ str_int adj +:+ ". Reason: " +:+ reason),
                 store_row p' db)
              else (InternalServerError, db)
          | None => (InternalServerError, db)
          end
      | GET => (Page, db)
      end
  end.

(** The requests that can change the table, and the start of the program. *)
Inductive request :=
| AddProduct (method : http_method) (form : form_data)
| EditProduct (product_id : Z) (method : http_method) (form : form_data)
| DeleteProduct (product_id : Z)
| AdjustStock (product_id : Z) (method : http_method) (form : form_data)
| Startup.

Definition handle `{PyStr} `{PyFloat} (req : request) (db : database) : database :=
  match req with
  | AddProduct m form => (add_product m form db).2
  | EditProduct i m form => (edit_product i m form db).2
  | DeleteProduct i => (delete_product i db).2
  | AdjustStock i m form => (adjust_stock i m form db).2
  | Startup => init_db db
  end.

(** The table after a sequence of requests. *)
Definition run `{PyStr} `{PyFloat} (reqs : list request) (db : database) : database :=
  foldl (λ db req, handle req db) db reqs.

(** The table of a fresh installation after its first start. *)
Definition initial_db : database := init_db [].

(** *** Constraints and invariants of the table *)

(** [primary_key=True] on [id] *)
Definition primary_key (db : database) : Prop := NoDup (Product.id <$> db).

(** Every stock level is non-negative. *)
Definition stock_nonneg (db : database) : Prop :=
  Forall (λ p, 0 ≤ Product.stock p)%Z db.

(** The [stock] field of a submitted form does not read as a negative
    integer. *)
Definition form_stock_nonneg `{PyStr} (form : form_data) : Prop :=
  ∀ z : Z, int_or (form !! "stock") 0 = Some z → (0 ≤ z)%Z.

Definition request_stock_nonneg `{PyStr} (req : request) : Prop :=
  match req with
  | AddProduct _ form | EditProduct _ _ form => form_stock_nonneg form
  | _ => True
  end.

(** ** Files and the CSV export ([export_csv]) *)

(** [files] maps the name of a regular file of the working directory to
    its text, as a text-mode [read()] returns it (line ends as LF);
    [held_open] are the files another program keeps open, onto which
    [os.replace] raises [PermissionError]; [exports] is the [exports]
    directory read by the comparison routes. *)
Record filesystem := {
  files : gmap string string;
  held_open : gset string;
  exports : directory
}.

Definition LAST_CSV_PATH : string := "last_inventory.csv".
Definition csv_filename : string := "inventory.csv".
Definition temp_filename : string := "inventory_temp.csv".

(** [open(path, "w", ...).write(text)]: the file then holds [text] as a
    later text-mode read returns it, with its line ends as LF.  The file
    is taken to be writable: [held_open] bears on [os.replace] only. *)
Definition write_file (path text : string) (fs : filesystem) : filesystem :=
  {| files := <[path := universal_newlines text]> (files fs);
     held_open := held_open fs;
     exports := exports fs |}.

(** [open(path, "r").read()]; [None] when the file does not exist. *)
Definition read_file (path : string) (fs : filesystem) : option string :=
  files fs !! path.

(** [os.remove(path)] *)
Definition remove (path : string) (fs : filesystem) : filesystem :=
  {| files := delete path (files fs);
     held_open := held_open fs;
     exports := exports fs |}.

Inductive os_error := PermissionError | FileNotFoundError.

(** [os.replace(src, dst)] *)
Definition replace (src dst : string) (fs : filesystem) : os_error + filesystem :=
  match files fs !! src with
  | Some text =>
      if bool_decide (dst ∈ held_open fs) then inl PermissionError
      else inr {| files := <[dst := text]> (delete src (files fs));
                  held_open := held_open fs;
                  exports := exports fs |}
  | None => inl FileNotFoundError
  end.

(** [os.path.exists(path)] *)
Definition exists_file (path : string) (fs : filesystem) : bool :=
  bool_decide (is_Some (files fs !! path)).

(** The three messages of [comparison_result]: "No changes since last
    export.", "Changes detected! (CSV updated)", "First CSV export
    created!". *)
Inductive comparison_result := NO_CHANGES | CHANGES_DETECTED | FIRST_EXPORT.

(** The two pages the route returns: "Cannot update CSV" and "CSV Exported
    Successfully!" with the comparison message. *)
Inductive export_response :=
| CannotUpdateCsv
| Exported (comparison : comparison_result).

Definition INVENTORY_HEADER : row := ["SKU"; "Name"; "Stock"; "Price"].

(** [[p.sku, p.name, p.stock, p.price]] as the writer renders it *)
Definition product_row `{PyFloat} (p : Product.t) : row :=
  [Product.sku p; Product.name p; str_int (Product.stock p);
   str_float (Product.price p)].

(** What the first [with] block writes to the temporary file. *)
Definition inventory_csv `{PyFloat} (products : list Product.t) : string :=
  writerows (INVENTORY_HEADER :: (product_row <$> products)).

(** The text of [inventory.csv] as it is read back after the export. *)
Definition snapshot_text `{PyFloat} (products : list Product.t) : string :=
  universal_newlines (inventory_csv products).

(** The comparison of the new file with the last export. *)
Definition quick_compare (fs : filesystem) : option comparison_result :=
  if exists_file LAST_CSV_PATH fs then
    old_csv ← read_file LAST_CSV_PATH fs;
    new_csv ← read_file csv_filename fs;
    Some (if bool_decide (new_csv = old_csv) then NO_CHANGES else CHANGES_DETECTED)
  else Some FIRST_EXPORT.

(** [export_csv()]; [None] stands for an exception the route does not
    catch. *)
Definition export_csv `{PyFloat} (db : database) (fs : filesystem)
  : option (export_response * filesystem) :=
  let products := db in
  let fs := write_file temp_filename (inventory_csv products) fs in
  match replace temp_filename csv_filename fs with
  | inl PermissionError => Some (CannotUpdateCsv, remove temp_filename fs)
  | inl FileNotFoundError => None
  | inr fs =>
      comparison_result ← quick_compare fs;
      text ← read_file csv_filename fs;
      Some (Exported comparison_result, write_file LAST_CSV_PATH text fs)
  end.

(** ** The listing routes and the dashboard *)

(** [unique=True] on [sku] *)
Definition unique_sku (db : database) : Prop := NoDup (Product.sku <$> db).

(** [products] of [list_products]:
    [Product.query.order_by(Product.name).all()].  Names are compared as
    byte strings; the order among equal names is the store's choice. *)
Definition list_products (db : database) : list Product.t :=
  merge_sort (λ p q, String.leb (Product.name p) (Product.name q)) db.

(** [Product.stock <= Product.reorder_threshold] *)
Definition stock_is_low (p : Product.t) : Prop :=
  (Product.stock p ≤ Product.reorder_threshold p)%Z.

#[local] Instance stock_is_low_dec (p : Product.t) : Decision (stock_is_low p) :=
  Z_le_dec (Product.stock p) (Product.reorder_threshold p).

(** The order of [Product.stock.asc()] *)
Definition stock_asc (p q : Product.t) : Prop :=
  (Product.stock p ≤ Product.stock q)%Z.

#[local] Instance stock_asc_dec (p q : Product.t) : Decision (stock_asc p q) :=
  Z_le_dec (Product.stock p) (Product.stock q).

(** [items] of [low_stock]: the filter on the reorder threshold followed
    by [order_by(Product.stock.asc())]; the order among equal stocks is
    the store's choice. *)
Definition low_stock (db : database) : list Product.t :=
  merge_sort stock_asc (filter stock_is_low db).

(** [total_items] of [index]: [sum(p.stock for p in products)] *)
Definition total_items (products : list Product.t) : Z :=
  foldl (λ acc p, acc + Product.stock p)%Z 0%Z products.

(** [low_count] of [index]: the [count()] of the threshold filter *)
Definition low_count (db : database) : nat :=
  length (filter stock_is_low db).

(** ** Data of the closed examples *)

(** Python's two conversions on the floats that occur in the examples
    (a finite table, not a model of the conversions).  The closed
    examples below are evaluated with this instance. *)
Definition example_str_float (x : float) : string :=
  if PrimFloat.eqb x 250%float then "250.0"
  else if PrimFloat.eqb x 80%float then "80.0"
  else if PrimFloat.eqb x 2.5%float then "2.5"
  else "0.0".

Definition example_float_of_str (s : string) : option float :=
  if String.eqb s "250.0" then Some 250%float
  else if String.eqb s "80.0" then Some 80%float
  else if String.eqb s "2.5" then Some 2.5%float
  else if String.eqb s "0.0" then Some 0%float
  else None.

#[local] Instance example_floats : PyFloat :=
  {| float_of_str := example_float_of_str; str_float := example_str_float |}.

(** The examples are in ASCII, where the two built-ins on text are the
    functions defined above. *)
#[local] Instance ascii_text : PyStr :=
  {| strip := ascii_strip; int_of_str := ascii_int_of_str |}.

Definition milk : Product.t :=
  Product.mk 2 "DBR-002" "Milk (1L)" (Some "Fresh milk") 80%float 10 3.

Definition espresso_row : row := ["DBR-001"; "Espresso Beans 250g"; "20"; "250.0"].
Definition milk_row : row := ["DBR-002"; "Milk (1L)"; "10"; "80.0"].


(** One product whose name holds a CR, and the same product with an LF
    in its place. *)
Definition tea_cr : Product.t :=
  Product.mk 1 "TEA-001" (String "T" (String "e" (String "a" (String "013"%char "bags"))))
    (Some "") 2.5%float 8 5.

Definition tea_lf : Product.t :=
  Product.mk 1 "TEA-001" (String "T" (String "e" (String "a" (String "010"%char "bags"))))
    (Some "") 2.5%float 8 5.

(** An empty working directory with an empty [exports] directory. *)
Definition empty_fs : filesystem :=
  {| files := ∅; held_open := ∅; exports := [] |}.

(** [inventory.csv] and the reference copy of an earlier export are
    present and [inventory.csv] is open in another program. *)
Definition locked_fs : filesystem :=
  {| files := {[ csv_filename := "SKU,Name,Stock,Price" +:+ String "010"%char "";
                 LAST_CSV_PATH := "SKU,Name,Stock,Price" +:+ String "010"%char "" ]};
     held_open := {[ csv_filename ]};
     exports := [] |}.

(** * Properties *)

(** ** Reading back a printed integer *)

Lemma rstrip_cons (space : ascii → bool) (c : ascii) (s : string) :
  space c = false → rstrip space (String c s) = String c (rstrip space s).
Proof. intros Hc. simpl. rewrite Hc. by destruct (rstrip space s). Qed.

Lemma rstrip_digits (d : Decimal.uint) :
  rstrip isspace_int (NilEmpty.string_of_uint d) = NilEmpty.string_of_uint d.
Proof.
  induction d as [|d IH|d IH|d IH|d IH|d IH|d IH|d IH|d IH|d IH|d IH];
    [done|..]; cbn [NilEmpty.string_of_uint];
    rewrite rstrip_cons by reflexivity; by rewrite IH.
Qed.

Lemma int_digits_pos (d : Decimal.uint) (acc : positive) (after_digit : bool) :
  (d = Decimal.Nil → after_digit = true) →
  int_digits (Z.pos acc) after_digit (NilEmpty.string_of_uint d)
  = Some (Z.pos (Pos.of_uint_acc d acc)).
Proof.
  revert acc after_digit.
  induction d as [|d IH|d IH|d IH|d IH|d IH|d IH|d IH|d IH|d IH|d IH];
    intros acc after_digit Hnil;
    [by rewrite (Hnil eq_refl)|..];
    cbn [NilEmpty.string_of_uint int_digits Pos.of_uint_acc];
    change (isdigit _) with true; cbv iota;
    rewrite <- (IH _ true) by done; f_equal;
    match goal with
    | |- context [digit_value ?c] =>
        let v := eval vm_compute in (digit_value c) in
        change (digit_value c) with v
    end; lia.
Qed.

Lemma int_digits_zero (d : Decimal.uint) (after_digit : bool) :
  (d = Decimal.Nil → after_digit = true) →
  int_digits 0 after_digit (NilEmpty.string_of_uint d)
  = Some (Z.of_N (Pos.of_uint d)).
Proof.
  revert after_digit.
  induction d as [|d IH|d IH|d IH|d IH|d IH|d IH|d IH|d IH|d IH|d IH];
    intros after_digit Hnil;
    [by rewrite (Hnil eq_refl)| by apply IH |..];
    cbn [NilEmpty.string_of_uint int_digits Pos.of_uint];
    change (isdigit _) with true; cbv iota;
    simpl Z.of_N; rewrite <- (int_digits_pos d _ true) by done; f_equal.
Qed.

Lemma int_digits_to_uint (p : positive) :
  int_digits 0 false (NilEmpty.string_of_uint (Pos.to_uint p)) = Some (Z.pos p).
Proof.
  rewrite int_digits_zero.
  - by rewrite DecimalPos.Unsigned.of_to.
  - intros Hnil. by apply DecimalPos.Unsigned.to_uint_nonnil in Hnil.
Qed.

Lemma string_of_uint_to_uint (p : positive) :
  NilZero.string_of_uint (Pos.to_uint p) = NilEmpty.string_of_uint (Pos.to_uint p).
Proof.
  pose proof (DecimalPos.Unsigned.to_uint_nonnil p) as Hnil.
  by destruct (Pos.to_uint p).
Qed.

(** [int(str(n)) == n] *)
Lemma int_of_str_str_int (n : Z) : ascii_int_of_str (str_int n) = Some n.
Proof.
  destruct n as [|p|p]; [done|..]; unfold str_int, ascii_int_of_str;
    cbn [Z.to_int NilZero.string_of_int]; rewrite string_of_uint_to_uint.
  - pose proof (int_digits_to_uint p) as Hp.
    pose proof (rstrip_digits (Pos.to_uint p)) as Hr.
    pose proof (DecimalPos.Unsigned.to_uint_nonnil p) as Hnil.
    destruct (Pos.to_uint p); [done|..];
      cbn [NilEmpty.string_of_uint lstrip] in *;
      change (isspace_int _) with false; cbv iota; rewrite Hr;
      change (Ascii.eqb _ "-") with false;
      change (Ascii.eqb _ "+") with false; cbv iota; exact Hp.
  - cbn [lstrip]. change (isspace_int "-") with false. cbv iota.
    rewrite rstrip_cons, rstrip_digits by reflexivity.
    change (Ascii.eqb "-" "-") with true. cbv iota.
    by rewrite int_digits_to_uint.
Qed.

(** Every integer can be submitted in a form field (in ASCII). *)
Lemma int_or_str_int (n default : Z) : int_or (Some (str_int n)) default = Some n.
Proof.
  unfold int_or. simpl. rewrite int_of_str_str_int.
  destruct n as [|p|p]; [done| |done].
  unfold str_int; simpl. rewrite string_of_uint_to_uint.
  pose proof (DecimalPos.Unsigned.to_uint_nonnil p) as Hnil.
  by destruct (Pos.to_uint p).
Qed.

(** ** Row-level comparison *)

Section row_status.
Implicit Types prev_row curr_row : row.

Lemma truthy_list_length {A} (l : list A) :
  (1 ≤ length l)%nat → truthy_list l = true.
Proof. destruct l; simpl; [lia | done]. Qed.

(** Both rows have at least four cells: the first branch is taken. *)
Lemma row_status_four_cells prev_row curr_row :
  (4 ≤ length prev_row)%nat → (4 ≤ length curr_row)%nat →
  row_status prev_row curr_row =
    if bool_decide (prev_row = curr_row) then "UNCHANGED"
    else if bool_decide (prev_row !! 2%nat = curr_row !! 2%nat
                         ∧ prev_row !! 3%nat = curr_row !! 3%nat)
         then "UPDATED" else "CHANGED".
Proof.
  intros Hp Hc. unfold row_status.
  rewrite !truthy_list_length by lia.
  rewrite !bool_decide_eq_true_2 by done. simpl.
  destruct (decide (prev_row = curr_row)) as [->|Hne].
  - by rewrite bool_decide_eq_false_2, bool_decide_eq_true_2 by tauto.
  - rewrite (bool_decide_eq_true_2 (_ ≠ _)), (bool_decide_eq_false_2 (_ = _)) by done.
    destruct (decide (prev_row !! 2%nat = curr_row !! 2%nat)) as [E2|N2];
      destruct (decide (prev_row !! 3%nat = curr_row !! 3%nat)) as [E3|N3].
    + rewrite !(bool_decide_eq_false_2 (_ ≠ _)) by (intros ?; done).
      by rewrite bool_decide_eq_true_2.
    + rewrite (bool_decide_eq_true_2 (_ !! 3%nat ≠ _)), orb_true_r by done.
      by rewrite (bool_decide_eq_false_2 (_ ∧ _)) by (intros [_ ?]; done).
    + rewrite (bool_decide_eq_true_2 (_ !! 2%nat ≠ _)) by done.
      by rewrite (bool_decide_eq_false_2 (_ ∧ _)) by (intros [? _]; done).
    + rewrite (bool_decide_eq_true_2 (_ !! 2%nat ≠ _)) by done.
      by rewrite (bool_decide_eq_false_2 (_ ∧ _)) by (intros [? _]; done).
Qed.

Lemma row_status_unchanged prev_row :
  (4 ≤ length prev_row)%nat → row_status prev_row prev_row = "UNCHANGED".
Proof.
  intros Hp. rewrite row_status_four_cells by done.
  by rewrite bool_decide_eq_true_2.
Qed.

(** Rows of exactly four cells [sku, name, stock, price]. *)
Lemma row_status_products (sku1 name1 stock1 price1 sku2 name2 stock2 price2 : string) :
  row_status [sku1; name1; stock1; price1] [sku2; name2; stock2; price2] =
    if bool_decide (stock1 ≠ stock2 ∨ price1 ≠ price2) then "CHANGED"
    else if bool_decide (sku1 ≠ sku2 ∨ name1 ≠ name2) then "UPDATED"
    else "UNCHANGED".
Proof.
  rewrite row_status_four_cells by (simpl; lia). simpl.
  destruct (decide (stock1 = stock2)) as [->|Hs];
    destruct (decide (price1 = price2)) as [->|Hp];
    destruct (decide (sku1 = sku2)) as [->|Hk];
    destruct (decide (name1 = name2)) as [->|Hn];
    repeat
      (first [ rewrite bool_decide_eq_true_2 by (intuition congruence)
             | rewrite bool_decide_eq_false_2 by (intuition congruence) ]);
    reflexivity.
Qed.

(** Against the placeholder, a row of at least four cells never reaches
    the [NEW] and [REMOVED] branches. *)
Lemma row_status_placeholder_prev curr_row :
  (4 ≤ length curr_row)%nat →
  row_status EMPTY_ROW curr_row ≠ "NEW".
Proof.
  intros Hc. rewrite row_status_four_cells by (done || simpl; lia).
  destruct (bool_decide _); [done|]. destruct (bool_decide _); done.
Qed.

Lemma row_status_placeholder_curr prev_row :
  (4 ≤ length prev_row)%nat →
  row_status prev_row EMPTY_ROW ≠ "REMOVED".
Proof.
  intros Hc. rewrite row_status_four_cells by (done || simpl; lia).
  destruct (bool_decide _); [done|]. destruct (bool_decide _); done.
Qed.

End row_status.

Lemma length_compare_rows (previous_data current_data : list row) :
  length (compare_rows previous_data current_data)
  = Nat.max (length previous_data) (length current_data).
Proof. unfold compare_rows. by rewrite length_fmap, length_seq. Qed.

Lemma lookup_compare_rows (previous_data current_data : list row) (i : nat) :
  (i < Nat.max (length previous_data) (length current_data))%nat →
  compare_rows previous_data current_data !! i
  = Some (compare_row previous_data current_data i).
Proof.
  intros Hi. unfold compare_rows.
  rewrite list_lookup_fmap, lookup_seq_lt by done. done.
Qed.

(** With no previous file every row is paired with the placeholder. *)
Lemma compare_rows_nil_previous (current_data : list row) :
  compare_rows [] current_data
  = (λ r, EMPTY_ROW ++ r ++ [row_status EMPTY_ROW r]) <$> current_data.
Proof.
  apply list_eq. intros i. rewrite list_lookup_fmap.
  destruct (current_data !! i) as [r|] eqn:Hr; simpl.
  - rewrite lookup_compare_rows
      by (apply lookup_lt_Some in Hr; simpl; lia).
    unfold compare_row, row_at. by rewrite Hr, lookup_nil.
  - apply lookup_ge_None. apply lookup_ge_None in Hr.
    rewrite length_compare_rows. simpl. lia.
Qed.

(** *** Loading the two newest files *)

Lemma string_compare_trans (s1 s2 s3 : string) :
  String.compare s1 s2 ≠ Gt → String.compare s2 s3 ≠ Gt →
  String.compare s1 s3 ≠ Gt.
Proof.
  revert s2 s3. induction s1 as [|c1 s1 IH]; intros [|c2 s2] [|c3 s3];
    simpl; try done.
  unfold Ascii.compare.
  destruct (N.compare_spec (N_of_ascii c1) (N_of_ascii c2)) as [E12|L12|G12];
    destruct (N.compare_spec (N_of_ascii c2) (N_of_ascii c3)) as [E23|L23|G23];
    destruct (N.compare_spec (N_of_ascii c1) (N_of_ascii c3)) as [E13|L13|G13];
    try done; try lia.
  apply IH.
Qed.

Lemma string_leb_trans (s1 s2 s3 : string) :
  String.leb s1 s2 → String.leb s2 s3 → String.leb s1 s3.
Proof.
  unfold String.leb. intros H12 H23.
  pose proof (string_compare_trans s1 s2 s3) as Ht.
  destruct (String.compare s1 s2), (String.compare s2 s3),
    (String.compare s1 s3); try done; by destruct Ht.
Qed.

Lemma string_leb_total (s1 s2 : string) : String.leb s1 s2 ∨ String.leb s2 s1.
Proof.
  destruct (String.leb_total s1 s2) as [Hle|Hle]; rewrite Hle; [by left|by right].
Qed.

#[local] Instance newest_first_trans : Transitive (λ a b : string, String.leb b a).
Proof. intros a b c Hba Hcb. by eapply string_leb_trans. Qed.

#[local] Instance newest_first_total : Total (λ a b : string, String.leb b a).
Proof. intros a b. apply string_leb_total. Qed.



Lemma elem_of_csv_files (export_dir : directory) (f : string) :
  f ∈ csv_files export_dir ↔ endswith f ".csv" = true ∧ f ∈ export_dir.*1.
Proof.
  unfold csv_files. rewrite merge_sort_Permutation.
  by rewrite list_elem_of_filter.
Qed.



Lemma read_rows_is_Some (export_dir : directory) (f : string) :
  f ∈ export_dir.*1 → is_Some (read_rows export_dir f).
Proof.
  unfold read_rows. induction export_dir as [|[g rows] export_dir IH]; simpl.
  - intros H. by apply elem_of_nil in H.
  - intros [->|H]%elem_of_cons.
    + rewrite String.eqb_refl. simpl. eauto.
    + destruct (String.eqb g f); simpl; [eauto | by apply IH].
Qed.

(** Opening a listed file never fails: both loads return. *)
Lemma load_data_is_Some (export_dir : directory) (k : nat) :
  is_Some (load_data export_dir k).
Proof.
  unfold load_data.
  destruct (csv_files export_dir !! k) as [f|] eqn:Hf; [|eauto].
  apply read_rows_is_Some.
  apply list_elem_of_lookup_2, elem_of_csv_files in Hf. tauto.
Qed.

Lemma comparison_table_eq (export_dir : directory) (current_data previous_data : list row) :
  load_data export_dir 0 = Some current_data →
  load_data export_dir 1 = Some previous_data →
  comparison_table export_dir
  = Some (COMPARE_HEADER :: compare_rows previous_data current_data).
Proof. intros Hc Hp. unfold comparison_table. by rewrite Hc, Hp. Qed.

(** No file of the directory ends in [.csv]: only the header is written. *)
Lemma comparison_table_no_snapshot (export_dir : directory) :
  Forall (λ e, endswith e.1 ".csv" = false) export_dir →
  comparison_table export_dir = Some [COMPARE_HEADER].
Proof.
  intros Hall.
  assert (csv_files export_dir = []) as Hnil.
  { destruct (csv_files export_dir) as [|f l] eqn:E; [done|].
    assert (f ∈ csv_files export_dir) as Hin by (rewrite E; left).
    apply elem_of_csv_files in Hin as [Hcsv Hin].
    apply list_elem_of_fmap in Hin as [e [-> He]].
    rewrite Forall_forall in Hall. apply Hall in He. congruence. }
  apply (comparison_table_eq _ [] []); unfold load_data; by rewrite Hnil.
Qed.

(** Exactly one file ends in [.csv]: its rows face the placeholder. *)
Lemma comparison_table_one_snapshot (export_dir : directory) (f : string)
    (rows : list row) :
  filter (λ f, endswith f ".csv" = true) export_dir.*1 = [f] →
  read_rows export_dir f = Some rows →
  comparison_table export_dir
  = Some (COMPARE_HEADER ::
          ((λ r, EMPTY_ROW ++ r ++ [row_status EMPTY_ROW r]) <$> rows)).
Proof.
  intros Hone Hrows.
  assert (csv_files export_dir = [f]) as Hf
    by (unfold csv_files; by rewrite Hone).
  rewrite <- compare_rows_nil_previous.
  apply comparison_table_eq; unfold load_data; by rewrite Hf.
Qed.

(** C1, defect in the code: a snapshot row without a partner is reported
    CHANGED.  The previous file holds the header only and the current one
    the header and a product: row 1 has no previous row, and the code
    pairs it with the placeholder of four empty cells, which passes the
    length test of the first branch, so the status is CHANGED where NEW is
    expected; with the two files swapped the status is CHANGED where
    REMOVED is expected. *)
Theorem C1_unpaired_row_reported_changed :
  compare_rows [INVENTORY_HEADER] [INVENTORY_HEADER; milk_row] !! 1%nat
    = Some (EMPTY_ROW ++ milk_row ++ ["CHANGED"])
  ∧ compare_rows [INVENTORY_HEADER; milk_row] [INVENTORY_HEADER] !! 1%nat
    = Some (milk_row ++ EMPTY_ROW ++ ["CHANGED"]).
Proof. split; reflexivity. Qed.

(** C2, defect in the code: with exactly one snapshot in [exports] the
    rows are paired with the all-empty previous row, but their status is
    CHANGED, not NEW (the placeholder passes the length test of the first
    branch). *)
Theorem C2_single_snapshot_rows_changed :
  comparison_table [("inventory_20240101_120000.csv", [INVENTORY_HEADER; milk_row])]
  = Some [COMPARE_HEADER;
          EMPTY_ROW ++ INVENTORY_HEADER ++ ["CHANGED"];
          EMPTY_ROW ++ milk_row ++ ["CHANGED"]].
Proof. reflexivity. Qed.



(** ** The product table *)

Section store.
Context `{PyStr} `{PyFloat}.
Implicit Types (db : database) (p q : Product.t) (form : form_data).

Lemma get_or_404_Some db product_id p :
  get_or_404 db product_id = Some p → p ∈ db ∧ Product.id p = product_id.
Proof.
  unfold get_or_404. intros [Hin Hid]%find_some.
  split; [by apply list_elem_of_In | by apply bool_decide_eq_true in Hid].
Qed.

Lemma id_store_row p db : Product.id <$> store_row p db = Product.id <$> db.
Proof.
  unfold store_row. rewrite <- list_fmap_compose. apply list_fmap_ext.
  intros i q _. simpl. by case_bool_decide.
Qed.

Lemma get_or_404_store_row db product_id p p' :
  get_or_404 db product_id = Some p →
  Product.id p' = product_id →
  get_or_404 (store_row p' db) product_id = Some p'.
Proof.
  unfold get_or_404, store_row. intros Hget Hid.
  induction db as [|q db IH]; simpl in *; [done|].
  destruct (decide (Product.id q = product_id)) as [Hq|Hq].
  - rewrite (bool_decide_eq_true_2 (Product.id q = Product.id p')) by congruence.
    by rewrite bool_decide_eq_true_2.
  - rewrite (bool_decide_eq_false_2 (Product.id q = Product.id p')) by congruence.
    rewrite (bool_decide_eq_false_2 (Product.id q = product_id)) in Hget by done.
    case_bool_decide; [done|]. by apply IH.
Qed.

Lemma lookup_store_row db p (i : nat) q :
  db !! i = Some q →
  store_row p db !! i
  = Some (if bool_decide (Product.id q = Product.id p) then p else q).
Proof. intros Hq. unfold store_row. by rewrite list_lookup_fmap, Hq. Qed.

Lemma next_id_fresh db q : q ∈ db → (Product.id q < next_id db)%Z.
Proof.
  unfold next_id. induction db as [|r db IH].
  - intros Hq. by apply elem_of_nil in Hq.
  - rewrite fmap_cons. cbn [foldr].
    intros [->|Hq]%elem_of_cons; [lia|]. apply IH in Hq. lia.
Qed.

Lemma sku_conflict_true db self_id s q :
  q ∈ db → Product.id q ≠ self_id → Product.sku q = s →
  sku_conflict db self_id s = true.
Proof.
  intros Hq Hid Hsku. unfold sku_conflict. apply existsb_exists.
  exists q. split; [by apply list_elem_of_In|].
  by rewrite !bool_decide_eq_true_2.
Qed.

(** What a commit that succeeds has checked. *)
Lemma check_row_None db p :
  check_row db p = None →
  sqlite_integer (Product.stock p) = true
  ∧ sqlite_integer (Product.reorder_threshold p) = true
  ∧ PrimFloat.is_nan (Product.price p) = false
  ∧ sku_conflict db (Product.id p) (Product.sku p) = false.
Proof.
  unfold check_row.
  destruct (sqlite_integer (Product.stock p)),
    (sqlite_integer (Product.reorder_threshold p)); simpl; try done.
  by destruct (PrimFloat.is_nan (Product.price p)),
    (sku_conflict db (Product.id p) (Product.sku p)).
Qed.

Lemma check_row_ok db p :
  sqlite_integer (Product.stock p) = true →
  sqlite_integer (Product.reorder_threshold p) = true →
  PrimFloat.is_nan (Product.price p) = false →
  sku_conflict db (Product.id p) (Product.sku p) = false →
  check_row db p = None.
Proof. unfold check_row. by intros -> -> -> ->. Qed.

Lemma insert_commit_inr p db db' :
  insert_commit p db = inr db' → db' = db ++ [p] ∧ check_row db p = None.
Proof.
  unfold insert_commit. destruct (check_row db p); [done|].
  intros [= <-]. done.
Qed.

Lemma update_commit_inr p db db' :
  update_commit p db = inr db' → db' = store_row p db ∧ check_row db p = None.
Proof.
  unfold update_commit. destruct (check_row db p); [done|].
  intros [= <-]. done.
Qed.

(** *** The primary key stays unique *)

Lemma primary_key_store_row p db : primary_key db → primary_key (store_row p db).
Proof. unfold primary_key. by rewrite id_store_row. Qed.

Lemma primary_key_insert p db :
  primary_key db → Product.id p = next_id db → primary_key (db ++ [p]).
Proof.
  unfold primary_key. intros Hdb Hid. rewrite fmap_app. simpl.
  apply NoDup_app. split_and!; [done| |apply NoDup_singleton].
  intros i [q [-> Hq]]%list_elem_of_fmap Hi%list_elem_of_singleton.
  apply next_id_fresh in Hq. lia.
Qed.

Lemma primary_key_delete p db : primary_key db → primary_key (delete_commit p db).
Proof.
  unfold primary_key, delete_commit. intros Hdb.
  apply (sublist_NoDup _ _ Hdb), fmap_sublist, sublist_filter.
Qed.

Lemma primary_key_sample : primary_key sample.
Proof.
  unfold primary_key. simpl.
  apply NoDup_ListNoDup. repeat constructor; simpl; intuition lia.
Qed.

Lemma primary_key_handle req db : primary_key db → primary_key (handle req db).
Proof.
  intros Hdb. destruct req as [m form|i m form|i|i m form|]; simpl.
  - unfold add_product. destruct m; [done|].
    destruct (product_fields form) as [[[[[[s n] d] pr] st] th]|]; [|done].
    simpl. destruct (insert_commit _ db) as [[]|db'] eqn:Hc; [done|done|].
    apply insert_commit_inr in Hc as [-> _]. by apply primary_key_insert.
  - unfold edit_product. destruct (get_or_404 db i) as [p|]; [|done].
    destruct m; [done|].
    destruct (product_fields form) as [[[[[[s n] d] pr] st] th]|]; [|done].
    simpl. destruct (update_commit _ db) as [[]|db'] eqn:Hc; [done|done|].
    apply update_commit_inr in Hc as [-> _]. by apply primary_key_store_row.
  - unfold delete_product. destruct (get_or_404 db i) as [p|]; [|done].
    by apply primary_key_delete.
  - unfold adjust_stock. destruct (get_or_404 db i) as [p|]; [|done].
    destruct m; [done|]. destruct (int_or _ _); [|done].
    simpl. destruct (sqlite_integer _); [|done].
    by apply primary_key_store_row.
  - unfold init_db. case_bool_decide; [apply primary_key_sample | done].
Qed.

Lemma primary_key_run reqs db : primary_key db → primary_key (run reqs db).
Proof.
  unfold run. revert db. induction reqs as [|req reqs IH]; intros db Hdb; simpl.
  - done.
  - by apply IH, primary_key_handle.
Qed.

(** Two rows with the same key are the same row. *)
Lemma primary_key_inj db p q :
  primary_key db → p ∈ db → q ∈ db → Product.id p = Product.id q → p = q.
Proof.
  unfold primary_key. intros Hnd [i Hi]%list_elem_of_lookup [j Hj]%list_elem_of_lookup Hid.
  assert (i = j) as ->.
  { eapply NoDup_lookup; [done| |].
    - by rewrite list_lookup_fmap, Hi.
    - by rewrite list_lookup_fmap, Hj, Hid. }
  congruence.
Qed.

End store.

(** *** Stock levels *)

Section stock.
Context `{PyStr} `{PyFloat}.
Implicit Types (db : database) (p q : Product.t) (form : form_data).

Lemma product_fields_stock form sku name desc price stock thresh :
  product_fields form = Some (sku, name, desc, price, stock, thresh) →
  int_or (form !! "stock") 0 = Some stock.
Proof.
  unfold product_fields. intros Hf.
  destruct (form !! "sku"), (form !! "name"), (form !! "description");
    simpl in Hf; try done.
  destruct (float_or_0 _); simpl in Hf; [|done].
  destruct (int_or (form !! "stock") 0); simpl in Hf; [|done].
  destruct (int_or (form !! "reorder_threshold") 5); simpl in Hf; [|done].
  congruence.
Qed.

Lemma product_fields_sku form sku name desc price stock thresh :
  product_fields form = Some (sku, name, desc, price, stock, thresh) →
  strip <$> form !! "sku" = Some sku.
Proof.
  unfold product_fields. intros Hf.
  destruct (form !! "sku"), (form !! "name"), (form !! "description");
    simpl in Hf; try done.
  destruct (float_or_0 _); simpl in Hf; [|done].
  destruct (int_or (form !! "stock") 0); simpl in Hf; [|done].
  destruct (int_or (form !! "reorder_threshold") 5); simpl in Hf; [|done].
  simpl. congruence.
Qed.

Lemma stock_nonneg_store_row p db :
  (0 ≤ Product.stock p)%Z → stock_nonneg db → stock_nonneg (store_row p db).
Proof.
  unfold stock_nonneg, store_row. intros Hp Hdb.
  apply Forall_fmap. eapply Forall_impl; [exact Hdb|].
  intros q Hq. simpl. by case_bool_decide.
Qed.

Lemma stock_nonneg_delete p db :
  stock_nonneg db → stock_nonneg (delete_commit p db).
Proof.
  unfold stock_nonneg, delete_commit. intros Hdb.
  apply Forall_forall. intros q [_ Hq]%list_elem_of_filter.
  rewrite Forall_forall in Hdb. by apply Hdb.
Qed.

Lemma stock_nonneg_sample : stock_nonneg sample.
Proof. unfold stock_nonneg, sample. repeat constructor; simpl; lia. Qed.

(** One request keeps all stocks non-negative when the stock it submits,
    if it submits one, is not negative. *)
Lemma stock_nonneg_handle req db :
  stock_nonneg db → request_stock_nonneg req → stock_nonneg (handle req db).
Proof.
  intros Hdb Hreq. destruct req as [m form|i m form|i|i m form|]; simpl in *.
  - unfold add_product. destruct m; [done|].
    destruct (product_fields form) as [[[[[[s n] d] pr] st] th]|] eqn:Hf; [|done].
    apply product_fields_stock, Hreq in Hf.
    simpl. destruct (insert_commit _ db) as [[]|db'] eqn:Hc; [done|done|].
    apply insert_commit_inr in Hc as [-> _].
    apply Forall_app. split; [done|]. by repeat constructor.
  - unfold edit_product. destruct (get_or_404 db i) as [p|]; [|done].
    destruct m; [done|].
    destruct (product_fields form) as [[[[[[s n] d] pr] st] th]|] eqn:Hf; [|done].
    apply product_fields_stock, Hreq in Hf.
    simpl. destruct (update_commit _ db) as [[]|db'] eqn:Hc; [done|done|].
    apply update_commit_inr in Hc as [-> _].
    by apply stock_nonneg_store_row.
  - unfold delete_product. destruct (get_or_404 db i) as [p|]; [|done].
    by apply stock_nonneg_delete.
  - unfold adjust_stock. destruct (get_or_404 db i) as [p|]; [|done].
    destruct m; [done|]. destruct (int_or _ _); [|done].
    simpl. destruct (sqlite_integer _); [|done].
    apply stock_nonneg_store_row; [simpl; lia | done].
  - unfold init_db. case_bool_decide; [apply stock_nonneg_sample | done].
Qed.

End stock.

(** C4 fails as stated: a create request whose form carries the stock
    "-5" is accepted, so the table reached from the sample data holds a
    negative stock. *)
Lemma C4_negative_stock_is_stored :
  stock_nonneg initial_db
  ∧ ¬ stock_nonneg
        (run [AddProduct POST
                {[ "sku" := "DBR-004"; "name" := "Sugar (1kg)";
                   "description" := ""; "price" := "0.0"; "stock" := "-5";
                   "reorder_threshold" := "5" ]}]
             initial_db).
Proof.
  split; [apply stock_nonneg_sample|].
  intros Hall.
  eapply (Forall_lookup_1 _ _ 3%nat) in Hall; [|vm_compute; reflexivity].
  simpl in Hall. lia.
Qed.

(** C4, as the code has it: starting from a table whose stocks are all
    non-negative, every sequence of requests in which each create or edit
    form submits a stock that is not negative leaves all stocks
    non-negative; delete and adjust requests are unrestricted. *)
Theorem C4_stock_nonneg_preserved `{PyStr} `{PyFloat} (reqs : list request)
    (db : database) :
  stock_nonneg db →
  Forall request_stock_nonneg reqs →
  stock_nonneg (run reqs db).
Proof.
  unfold run. revert db.
  induction reqs as [|req reqs IH]; intros db Hdb Hreqs; simpl; [done|].
  apply Forall_cons in Hreqs as [Hreq Hreqs].
  apply IH; [by apply stock_nonneg_handle | done].
Qed.

Lemma C4_stock_nonneg_preserved_witness :
  stock_nonneg
    (run [AdjustStock 2 POST {[ "adjust" := "-50"; "reason" := "spoiled" ]};
          AddProduct POST {[ "sku" := "DBR-004"; "name" := "Sugar (1kg)";
                             "description" := ""; "price" := "0.0";
                             "stock" := "7"; "reorder_threshold" := "5" ]};
          DeleteProduct 1]
         initial_db).
Proof.
  apply C4_stock_nonneg_preserved.
  - unfold initial_db, init_db, stock_nonneg, sample; simpl.
    repeat constructor; simpl; lia.
  - repeat constructor; simpl.
    intros z Hz. vm_compute in Hz. injection Hz as <-. lia.
Defined.

Lemma sqlite_integer_true (n : Z) :
  sqlite_integer n = true ↔ (- 2 ^ 63 ≤ n < 2 ^ 63)%Z.
Proof. unfold sqlite_integer. rewrite andb_true_iff. lia. Qed.

(** C5 fails as stated: the store holds 64-bit integers, so the milk
    (stock 10) cannot be adjusted by 9223372036854775807: the commit
    raises, the request ends in a server error and the stock stays 10,
    which is not [max(0, 10 + delta)]. *)
Lemma C5_adjustment_beyond_range_not_stored :
  adjust_stock 2 POST
    {[ "adjust" := "9223372036854775807"; "reason" := "recount" ]} sample
  = (InternalServerError, sample)
  ∧ Product.stock <$> get_or_404 sample 2 = Some 10
  ∧ Z.max 0 (10 + 9223372036854775807) ≠ 10.
Proof. split_and!; [vm_compute; reflexivity | reflexivity | lia]. Qed.

(** C5, as the code has it: for an existing product and a form whose
    [adjust] field reads as the integer [delta], when
    [max(0, stock + delta)] is a 64-bit integer the POST request succeeds
    and afterwards the stock of the product is [max(0, stock + delta)]: a
    decrease beyond the available stock is clamped to zero, not
    rejected. *)
Theorem C5_adjust_clamps_at_zero `{PyStr} (product_id : Z) (form : form_data)
    (db : database) (p : Product.t) (delta : Z) :
  get_or_404 db product_id = Some p →
  int_or (form !! "adjust") 0 = Some delta →
  (Z.max 0 (Product.stock p + delta) < 2 ^ 63)%Z →
  (∃ flashed : string,
     (adjust_stock product_id POST form db).1 = Redirect "list_products" flashed)
  ∧ Product.stock <$> get_or_404 (adjust_stock product_id POST form db).2 product_id
    = Some (Z.max 0 (Product.stock p + delta)).
Proof.
  intros Hget Hadj Hfits. unfold adjust_stock. rewrite Hget, Hadj. simpl.
  rewrite (proj2 (sqlite_integer_true _)) by lia. simpl.
  split; [eauto|].
  apply get_or_404_Some in Hget as Hp. destruct Hp as [_ Hid].
  erewrite get_or_404_store_row; [done|exact Hget|done].
Qed.

Lemma C5_adjust_clamps_at_zero_witness :
  get_or_404 sample 2 = Some milk
  ∧ Product.stock <$>
      get_or_404
        (adjust_stock 2 POST {[ "adjust" := "-50"; "reason" := "spoiled" ]} sample).2 2
    = Some 0.
Proof.
  split; [reflexivity|].
  refine (proj2 (C5_adjust_clamps_at_zero 2
                   {[ "adjust" := "-50"; "reason" := "spoiled" ]}
                   sample milk (-50) eq_refl _ _));
    [vm_compute; reflexivity | simpl; lia].
Defined.



(** C10: on a table that satisfies the primary key, an adjust request
    changes nothing but the stock of the addressed product: the table
    keeps its rows, every row keeps its id, sku, name, description, price
    and reorder threshold, every row with another id is unchanged, and the
    new table does not depend on the [reason] field (nor on any form field
    other than [adjust]). *)
Theorem C10_adjust_changes_only_stock `{PyStr} (product_id : Z)
    (method : http_method) (form : form_data) (db : database) :
  primary_key db →
  length (adjust_stock product_id method form db).2 = length db
  ∧ (∀ (i : nat) (q : Product.t), db !! i = Some q →
       ∃ q' : Product.t,
         (adjust_stock product_id method form db).2 !! i = Some q'
         ∧ Product.id q' = Product.id q
         ∧ Product.sku q' = Product.sku q
         ∧ Product.name q' = Product.name q
         ∧ Product.description q' = Product.description q
         ∧ Product.price q' = Product.price q
         ∧ Product.reorder_threshold q' = Product.reorder_threshold q
         ∧ (Product.id q ≠ product_id → q' = q))
  ∧ (∀ form' : form_data, form' !! "adjust" = form !! "adjust" →
       (adjust_stock product_id method form' db).2
       = (adjust_stock product_id method form db).2).
Proof.
  intros Hpk. unfold adjust_stock.
  destruct (get_or_404 db product_id) as [p|] eqn:Hget.
  2: { split_and!; [done| |done]. intros i q Hq. exists q. by split_and!. }
  apply get_or_404_Some in Hget as [Hp Hid].
  destruct method.
  { split_and!; [done| |done]. intros i q Hq. exists q. by split_and!. }
  split_and!.
  - destruct (int_or _ _); simpl; [|done].
    destruct (sqlite_integer _); simpl; [|done].
    unfold store_row. by rewrite length_fmap.
  - intros i q Hq.
    destruct (int_or _ _) as [adj|]; simpl.
    2: { exists q. by split_and!. }
    destruct (sqlite_integer _); simpl.
    2: { exists q. by split_and!. }
    rewrite (lookup_store_row _ _ _ _ Hq). simpl.
    case_bool_decide as Hqp.
    + assert (q = p) as ->.
      { eapply primary_key_inj; [done| |done|done].
        by eapply list_elem_of_lookup_2. }
      eexists. split; [done|]. simpl. split_and!; done.
    + exists q. by split_and!.
  - intros form' Hform. rewrite Hform. destruct (int_or _ _); [|done].
    simpl. by destruct (sqlite_integer _).
Qed.

Lemma C10_adjust_changes_only_stock_witness :
  (adjust_stock 2 POST {[ "adjust" := "-3"; "reason" := "sold" ]} sample).2
  = (adjust_stock 2 POST {[ "adjust" := "-3"; "reason" := "spoiled" ]} sample).2.
Proof.
  refine (proj2 (proj2 (C10_adjust_changes_only_stock 2 POST
            {[ "adjust" := "-3"; "reason" := "spoiled" ]} sample _)) _ _).
  - apply NoDup_ListNoDup. repeat constructor; simpl; intuition lia.
  - vm_compute; reflexivity.
Defined.

(** ** CSV export *)

Lemma universal_newlines_idemp (s : string) :
  universal_newlines (universal_newlines s) = universal_newlines s.
Proof.
  induction s as [|c s IH]; [done|]. cbn [universal_newlines].
  destruct (Ascii.eqb c "013") eqn:Hc.
  - destruct (starts_with_LF s); [done|].
    cbn [universal_newlines]. change (Ascii.eqb "010" "013") with false.
    cbv iota. by rewrite IH.
  - cbn [universal_newlines]. rewrite Hc. by rewrite IH.
Qed.

Section export.
Context `{PyFloat}.
Implicit Types (db : database) (fs : filesystem).

(** Writing the text read from [inventory.csv] stores it unchanged. *)
Lemma universal_newlines_snapshot_text db :
  universal_newlines (snapshot_text db) = snapshot_text db.
Proof. apply universal_newlines_idemp. Qed.

(** The export when [inventory.csv] is not held open: the comparison is
    made against the reference copy found before the export, and the new
    text ends up in [inventory.csv] and in the reference copy. *)
Lemma export_csv_unlocked db fs :
  csv_filename ∉ held_open fs →
  export_csv db fs
  = Some (Exported
            match files fs !! LAST_CSV_PATH with
            | Some old_csv =>
                if bool_decide (snapshot_text db = old_csv)
                then NO_CHANGES else CHANGES_DETECTED
            | None => FIRST_EXPORT
            end,
          {| files := <[LAST_CSV_PATH := snapshot_text db]>
                        (<[csv_filename := snapshot_text db]>
                           (delete temp_filename
                              (<[temp_filename := snapshot_text db]> (files fs))));
             held_open := held_open fs;
             exports := exports fs |}).
Proof.
  intros Hfree. unfold export_csv, replace, write_file. simpl.
  rewrite lookup_insert_eq. rewrite bool_decide_eq_false_2 by done.
  unfold quick_compare, exists_file, read_file. simpl.
  rewrite (lookup_insert_ne _ csv_filename LAST_CSV_PATH) by done.
  rewrite (lookup_delete_ne _ temp_filename LAST_CSV_PATH) by done.
  rewrite (lookup_insert_ne _ temp_filename LAST_CSV_PATH) by done.
  rewrite lookup_insert_eq. fold (snapshot_text db).
  destruct (files fs !! LAST_CSV_PATH) as [old_csv|] eqn:Hold; simpl.
  - by rewrite universal_newlines_snapshot_text.
  - by rewrite universal_newlines_snapshot_text.
Qed.

(** The export when [inventory.csv] is held open by another program. *)
Lemma export_csv_locked db fs :
  csv_filename ∈ held_open fs →
  export_csv db fs
  = Some (CannotUpdateCsv,
          {| files := delete temp_filename
                        (<[temp_filename := snapshot_text db]> (files fs));
             held_open := held_open fs;
             exports := exports fs |}).
Proof.
  intros Hlocked. unfold export_csv, replace, write_file. simpl.
  rewrite lookup_insert_eq. by rewrite bool_decide_eq_true_2.
Qed.

End export.

(** After every successful export the text of the new [inventory.csv]
    is also the content of the reference copy [last_inventory.csv]. *)
Lemma export_saves_reference_copy `{PyFloat} (db : database)
    (fs fs' : filesystem) (c : comparison_result) :
  export_csv db fs = Some (Exported c, fs') →
  read_file csv_filename fs' = Some (snapshot_text db)
  ∧ read_file LAST_CSV_PATH fs' = Some (snapshot_text db).
Proof.
  intros Hexport.
  destruct (decide (csv_filename ∈ held_open fs)) as [Hlocked|Hfree].
  { rewrite export_csv_locked in Hexport by done. congruence. }
  rewrite export_csv_unlocked in Hexport by done.
  injection Hexport as _ <-. unfold read_file. simpl.
  rewrite lookup_insert_eq.
  rewrite (lookup_insert_ne _ LAST_CSV_PATH csv_filename) by done.
  by rewrite lookup_insert_eq.
Qed.

(** C3, defect in the code: the export saves the reference copy but
    records nothing in the [exports] directory.  The first export of the
    sample products in an empty working directory succeeds and leaves
    [exports] empty: there is no timestamp-qualified copy, and the
    comparison route, which reads from [exports], still finds no
    snapshot. *)
Theorem C3_export_records_no_history :
  ∃ fs' : filesystem,
    export_csv sample empty_fs = Some (Exported FIRST_EXPORT, fs')
    ∧ read_file LAST_CSV_PATH fs' = Some (snapshot_text sample)
    ∧ ¬ (∃ (f : string) (rows : list row), (f, rows) ∈ exports fs')
    ∧ comparison_table (exports fs') = Some [COMPARE_HEADER].
Proof.
  eexists. split; [by rewrite export_csv_unlocked by set_solver|].
  simpl. split_and!; [done| |done].
  intros (f & rows & Hin). by apply elem_of_nil in Hin.
Qed.

(** C6 fails as stated: the comparison is made on the texts as read in
    text mode, where CR and LF are the same.  A product whose name holds
    a CR is exported, the CR is changed to an LF and the product is
    exported again: the bytes written by the two exports differ, and the
    second export reports NO_CHANGES. *)
Lemma C6_changed_bytes_reported_unchanged :
  ∃ fs' fs'' : filesystem,
    export_csv [tea_cr] empty_fs = Some (Exported FIRST_EXPORT, fs')
    ∧ export_csv [tea_lf] fs' = Some (Exported NO_CHANGES, fs'')
    ∧ inventory_csv [tea_lf] ≠ inventory_csv [tea_cr].
Proof.
  destruct (export_csv [tea_cr] empty_fs) as [[r fs']|] eqn:Hfirst;
    rewrite export_csv_unlocked in Hfirst by apply not_elem_of_empty;
    [|discriminate Hfirst].
  injection Hfirst as <- <-.
  eexists _, _. split; [reflexivity|]. split.
  - rewrite export_csv_unlocked by apply not_elem_of_empty.
    cbn [files]. rewrite lookup_insert_eq.
    rewrite bool_decide_eq_true_2 by (vm_compute; reflexivity). reflexivity.
  - intros Heq. vm_compute in Heq. discriminate Heq.
Qed.

(** C6, as the code has it: when none of the three files of the export
    is held open, the export succeeds and its quick comparison is
    FIRST_EXPORT when no reference copy existed, NO_CHANGES when the text
    of the just-written [inventory.csv], read in text mode, equals the
    text of the reference copy, and CHANGES_DETECTED otherwise; exporting
    the same products once more yields NO_CHANGES. *)
Theorem C6_quick_comparison `{PyFloat} (db : database) (fs : filesystem) :
  csv_filename ∉ held_open fs →
  temp_filename ∉ held_open fs →
  LAST_CSV_PATH ∉ held_open fs →
  ∃ (c : comparison_result) (fs' : filesystem),
    export_csv db fs = Some (Exported c, fs')
    ∧ read_file csv_filename fs' = Some (snapshot_text db)
    ∧ (read_file LAST_CSV_PATH fs = None → c = FIRST_EXPORT)
    ∧ (∀ old_csv : string, read_file LAST_CSV_PATH fs = Some old_csv →
         (snapshot_text db = old_csv → c = NO_CHANGES)
         ∧ (snapshot_text db ≠ old_csv → c = CHANGES_DETECTED))
    ∧ (∃ fs'' : filesystem,
         export_csv db fs' = Some (Exported NO_CHANGES, fs'')).
Proof.
  intros Hfree _ _. eexists _, _. split; [by apply export_csv_unlocked|].
  unfold read_file. simpl. split_and!.
  - rewrite (lookup_insert_ne _ LAST_CSV_PATH csv_filename) by done.
    by rewrite lookup_insert_eq.
  - by intros ->.
  - intros old_csv ->. split; intros Hcmp.
    + by rewrite bool_decide_eq_true_2.
    + by rewrite bool_decide_eq_false_2.
  - eexists. rewrite export_csv_unlocked by done. simpl.
    rewrite lookup_insert_eq. by rewrite bool_decide_eq_true_2.
Qed.

Lemma C6_quick_comparison_witness :
  ∃ fs' fs'' : filesystem,
    export_csv sample empty_fs = Some (Exported FIRST_EXPORT, fs')
    ∧ export_csv sample fs' = Some (Exported NO_CHANGES, fs'').
Proof.
  assert (∀ path : string, path ∉ held_open empty_fs) as Hfree
    by (intros path; apply not_elem_of_empty).
  destruct (C6_quick_comparison sample empty_fs (Hfree _) (Hfree _) (Hfree _))
    as (c & fs' & Hexport & _ & Hfirst & _ & fs'' & Hagain).
  exists fs', fs''. split; [|exact Hagain].
  rewrite Hexport. by rewrite (Hfirst eq_refl).
Defined.

(** C8: when [inventory.csv] is held open by another program the export
    returns the "Cannot update CSV" page, the temporary file is gone, and
    every other file, the previous [inventory.csv] and the reference copy
    among them, holds what it held before; the [exports] directory is
    untouched. *)
Theorem C8_locked_destination_leaves_state `{PyFloat} (db : database)
    (fs : filesystem) :
  csv_filename ∈ held_open fs →
  ∃ fs' : filesystem,
    export_csv db fs = Some (CannotUpdateCsv, fs')
    ∧ read_file temp_filename fs' = None
    ∧ read_file csv_filename fs' = read_file csv_filename fs
    ∧ read_file LAST_CSV_PATH fs' = read_file LAST_CSV_PATH fs
    ∧ (∀ path : string, path ≠ temp_filename →
         read_file path fs' = read_file path fs)
    ∧ exports fs' = exports fs
    ∧ held_open fs' = held_open fs.
Proof.
  intros Hlocked. eexists. split; [by apply export_csv_locked|].
  unfold read_file. simpl.
  assert (∀ path : string, path ≠ temp_filename →
            delete temp_filename (<[temp_filename := snapshot_text db]> (files fs)) !! path
            = files fs !! path) as Hframe.
  { intros path Hne. rewrite lookup_delete_ne by done.
    by rewrite lookup_insert_ne. }
  split_and!; try done.
  - by rewrite lookup_delete_eq.
  - by apply Hframe.
  - by apply Hframe.
Qed.

Lemma C8_locked_destination_leaves_state_witness :
  ∃ fs' : filesystem,
    export_csv sample locked_fs = Some (CannotUpdateCsv, fs')
    ∧ read_file temp_filename fs' = None
    ∧ read_file csv_filename fs' = read_file csv_filename locked_fs.
Proof.
  assert (csv_filename ∈ held_open locked_fs) as Hlocked
    by (unfold locked_fs; simpl; apply elem_of_singleton; reflexivity).
  destruct (C8_locked_destination_leaves_state sample locked_fs Hlocked)
    as (fs' & Hexport & Htemp & Hcsv & _).
  exists fs'. split_and!; [exact Hexport | exact Htemp | exact Hcsv].
Defined.

(** * Further properties of the routes *)

(** ** Orders used by the sorted listings *)

#[local] Instance by_name_trans :
  Transitive (λ p q : Product.t, String.leb (Product.name p) (Product.name q)).
Proof. intros p q r. apply string_leb_trans. Qed.

#[local] Instance by_name_total :
  Total (λ p q : Product.t, String.leb (Product.name p) (Product.name q)).
Proof. intros p q. apply string_leb_total. Qed.

#[local] Instance by_stock_trans : Transitive stock_asc.
Proof. unfold stock_asc. intros p q r. lia. Qed.

#[local] Instance by_stock_total : Total stock_asc.
Proof. unfold stock_asc. intros p q. lia. Qed.

Lemma StronglySorted_lookup_lt {A} (R : relation A) (l : list A) :
  StronglySorted R l →
  ∀ (i j : nat) (x y : A),
    (i < j)%nat → l !! i = Some x → l !! j = Some y → R x y.
Proof.
  induction 1 as [|a l Hl IH Ha]; intros i j x y Hij Hx Hy.
  - by rewrite lookup_nil in Hx.
  - destruct j as [|j]; [lia|]. destruct i as [|i]; simpl in *.
    + injection Hx as <-. rewrite Forall_forall in Ha.
      apply Ha. by eapply list_elem_of_lookup_2.
    + eapply (IH i j); [lia|done|done].
Qed.

(** ** The listing routes *)

(** The low-stock page lists exactly the products whose stock is at or
    below their reorder threshold, each as often as it is in the table,
    in ascending order of stock; the dashboard's low-stock count is the
    length of that list. *)
Theorem low_stock_lists_low_products_by_stock (db : database) :
  low_stock db ≡ₚ filter stock_is_low db
  ∧ (∀ p : Product.t,
       p ∈ low_stock db
       ↔ p ∈ db ∧ (Product.stock p ≤ Product.reorder_threshold p)%Z)
  ∧ (∀ (i j : nat) (p q : Product.t),
       (i < j)%nat → low_stock db !! i = Some p → low_stock db !! j = Some q →
       (Product.stock p ≤ Product.stock q)%Z)
  ∧ length (low_stock db) = low_count db.
Proof.
  assert (low_stock db ≡ₚ filter stock_is_low db) as Hperm
    by apply merge_sort_Permutation.
  split_and!.
  - done.
  - intros p. rewrite Hperm, list_elem_of_filter. unfold stock_is_low. tauto.
  - apply (StronglySorted_lookup_lt stock_asc).
    apply StronglySorted_merge_sort; apply _.
  - unfold low_count. by rewrite Hperm.
Qed.

(** The product page lists every product of the table exactly once per
    row, in ascending order of name (names compared as byte strings). *)
Theorem list_products_sorted_by_name (db : database) :
  list_products db ≡ₚ db
  ∧ (∀ (i j : nat) (p q : Product.t),
       (i < j)%nat →
       list_products db !! i = Some p → list_products db !! j = Some q →
       String.leb (Product.name p) (Product.name q) = true).
Proof.
  split; [apply merge_sort_Permutation|].
  intros i j p q Hij Hp Hq. apply Is_true_true.
  revert i j p q Hij Hp Hq.
  apply (StronglySorted_lookup_lt
           (λ p q, String.leb (Product.name p) (Product.name q))).
  apply StronglySorted_merge_sort; apply _.
Qed.

(** The comparison routes consider exactly the directory entries whose
    name ends in [.csv], newest name first: a file listed earlier has a
    name at least as large, so [current_data] comes from the largest
    name and [previous_data] from the next one. *)
Theorem csv_files_newest_first (export_dir : directory) :
  (∀ f : string,
     f ∈ csv_files export_dir
     ↔ endswith f ".csv" = true ∧ f ∈ export_dir.*1)
  ∧ (∀ (i j : nat) (f g : string),
       (i < j)%nat →
       csv_files export_dir !! i = Some f → csv_files export_dir !! j = Some g →
       String.leb g f = true)
  ∧ (∀ (k : nat) (f : string),
       csv_files export_dir !! k = Some f →
       load_data export_dir k = read_rows export_dir f
       ∧ is_Some (read_rows export_dir f)).
Proof.
  split_and!.
  - apply elem_of_csv_files.
  - intros i j f g Hij Hf Hg. apply Is_true_true.
    revert i j f g Hij Hf Hg.
    apply (StronglySorted_lookup_lt (λ a b, String.leb b a)).
    apply StronglySorted_merge_sort; apply _.
  - intros k f Hf. unfold load_data. rewrite Hf. split; [done|].
    apply read_rows_is_Some.
    apply list_elem_of_lookup_2, elem_of_csv_files in Hf. tauto.
Qed.

(** ** More on the row-level comparison *)

Lemma row_status_short (prev_row curr_row : row) :
  (length prev_row < 4)%nat ∨ (length curr_row < 4)%nat →
  row_status prev_row curr_row
  = if any curr_row then "NEW" else if any prev_row then "REMOVED" else "".
Proof.
  intros Hshort. unfold row_status.
  destruct (truthy_list prev_row), (truthy_list curr_row); simpl; try done.
  destruct Hshort.
  - by rewrite (bool_decide_eq_false_2 (4 ≤ length prev_row)%nat) by lia.
  - rewrite (bool_decide_eq_false_2 (4 ≤ length curr_row)%nat) by lia.
    by rewrite andb_false_r.
Qed.

(** The status of a pair of rows is decided by their lengths first: two
    rows of at least four cells are UNCHANGED, UPDATED or CHANGED and never
    NEW or REMOVED; as soon as one row has fewer than four cells the status
    is NEW when the current row has a non-empty cell, else REMOVED when the
    previous row has one, else empty, whatever the rows hold otherwise. *)
Theorem row_status_by_length (prev_row curr_row : row) :
  ((4 ≤ length prev_row)%nat ∧ (4 ≤ length curr_row)%nat →
   (row_status prev_row curr_row = "UNCHANGED" ∧ prev_row = curr_row)
   ∨ (row_status prev_row curr_row = "UPDATED" ∧ prev_row ≠ curr_row
      ∧ prev_row !! 2%nat = curr_row !! 2%nat
      ∧ prev_row !! 3%nat = curr_row !! 3%nat)
   ∨ (row_status prev_row curr_row = "CHANGED"
      ∧ (prev_row !! 2%nat ≠ curr_row !! 2%nat
         ∨ prev_row !! 3%nat ≠ curr_row !! 3%nat)))
  ∧ ((length prev_row < 4)%nat ∨ (length curr_row < 4)%nat →
     (row_status prev_row curr_row = "NEW" ∧ any curr_row = true)
     ∨ (row_status prev_row curr_row = "REMOVED"
        ∧ any curr_row = false ∧ any prev_row = true)
     ∨ (row_status prev_row curr_row = ""
        ∧ any curr_row = false ∧ any prev_row = false)).
Proof.
  split.
  - intros [Hp Hc]. rewrite row_status_four_cells by done.
    destruct (decide (prev_row = curr_row)) as [Heq|Hne].
    { left. by rewrite bool_decide_eq_true_2. }
    right. rewrite (bool_decide_eq_false_2 (prev_row = curr_row)) by done.
    destruct (decide (prev_row !! 2%nat = curr_row !! 2%nat
                      ∧ prev_row !! 3%nat = curr_row !! 3%nat)) as [[E2 E3]|Hd].
    + left. by rewrite bool_decide_eq_true_2.
    + right. rewrite bool_decide_eq_false_2 by done. split; [done|].
      destruct (decide (prev_row !! 2%nat = curr_row !! 2%nat)); [|by left].
      right. intros E3. by apply Hd.
  - intros Hshort. rewrite row_status_short by done.
    destruct (any curr_row); [by left|].
    destruct (any prev_row); [right; by left | right; by right].
Qed.

Lemma row_status_by_length_witness :
  row_status ["DBR-002"; "Milk (1L)"] milk_row = "NEW"
  ∧ row_status milk_row ["DBR-002"; "Milk (1L)"; "12"; "80.0"] = "CHANGED".
Proof.
  split.
  - destruct (proj2 (row_status_by_length ["DBR-002"; "Milk (1L)"] milk_row))
      as [[Hs _]|[[_ [Hc _]]|[_ [Hc _]]]];
      [left; simpl; lia | exact Hs | discriminate Hc | discriminate Hc].
  - destruct (proj1 (row_status_by_length milk_row
                       ["DBR-002"; "Milk (1L)"; "12"; "80.0"]))
      as [[_ He]|[[_ [_ [He _]]]|[Hs _]]];
      [simpl; lia | discriminate He | discriminate He | exact Hs].
Defined.

(** Comparing a file with an identical one gives, for each of its rows,
    the row twice and the status UNCHANGED when the row has at least four
    cells; a shorter row is reported NEW when it has a non-empty cell and
    gets the empty status otherwise. *)
Theorem compare_rows_same_data (data : list row) :
  compare_rows data data
  = (λ r, r ++ r ++ [if bool_decide (4 ≤ length r)%nat then "UNCHANGED"
                     else if any r then "NEW" else ""]) <$> data.
Proof.
  apply list_eq. intros i. rewrite list_lookup_fmap.
  destruct (data !! i) as [r|] eqn:Hr; simpl.
  - rewrite lookup_compare_rows by (apply lookup_lt_Some in Hr; lia).
    unfold compare_row, row_at. rewrite Hr. do 4 f_equal.
    case_bool_decide as Hlen.
    + by apply row_status_unchanged.
    + rewrite row_status_short by lia. by destruct (any r).
  - apply lookup_ge_None. apply lookup_ge_None in Hr.
    rewrite length_compare_rows. lia.
Qed.

(** Every row of the comparison is as wide as its two halves plus the
    status cell; when all rows of both files have four cells, every row
    of the comparison has the nine cells of the comparison header. *)
Theorem compare_rows_width (previous_data current_data : list row) :
  (∀ (i : nat) (r : row),
     compare_rows previous_data current_data !! i = Some r →
     length r = (length (row_at previous_data i)
                 + length (row_at current_data i) + 1)%nat)
  ∧ (Forall (λ r, length r = 4%nat) previous_data →
     Forall (λ r, length r = 4%nat) current_data →
     Forall (λ r, length r = length COMPARE_HEADER)
       (compare_rows previous_data current_data)).
Proof.
  assert (∀ (i : nat) (r : row),
            compare_rows previous_data current_data !! i = Some r →
            length r = (length (row_at previous_data i)
                        + length (row_at current_data i) + 1)%nat) as Hwidth.
  { intros i r Hr.
    assert (i < Nat.max (length previous_data) (length current_data))%nat as Hi.
    { apply lookup_lt_Some in Hr. by rewrite length_compare_rows in Hr. }
    rewrite lookup_compare_rows in Hr by done. injection Hr as <-.
    unfold compare_row. rewrite !length_app. simpl. lia. }
  split; [done|].
  intros Hp Hc. apply Forall_lookup. intros i r Hr.
  rewrite (Hwidth i r Hr).
  assert (∀ data : list row,
            Forall (λ r, length r = 4%nat) data → length (row_at data i) = 4%nat)
    as Hfour.
  { intros data Hdata. unfold row_at.
    destruct (data !! i) eqn:Hd; [|done].
    by apply (Forall_lookup_1 _ _ _ _ Hdata Hd). }
  by rewrite (Hfour _ Hp), (Hfour _ Hc).
Qed.

Lemma compare_rows_width_witness :
  Forall (λ r, length r = 9%nat)
    (compare_rows [INVENTORY_HEADER; espresso_row] [INVENTORY_HEADER; milk_row]).
Proof.
  apply (proj2 (compare_rows_width [INVENTORY_HEADER; espresso_row]
                  [INVENTORY_HEADER; milk_row]));
    repeat constructor.
Defined.

(** ** More on the product table *)

Lemma get_or_404_None (db : database) (product_id : Z) :
  get_or_404 db product_id = None ↔ ∀ q, q ∈ db → Product.id q ≠ product_id.
Proof.
  unfold get_or_404. induction db as [|r db IH]; simpl.
  - split; [|done]. intros _ q Hq. by apply elem_of_nil in Hq.
  - case_bool_decide as Hr.
    + split; [done|]. intros Hall. destruct (Hall r); [left|done].
    + rewrite IH. split.
      * intros Hall q [->|Hq]%elem_of_cons; [done|by apply Hall].
      * intros Hall q Hq. apply Hall. by right.
Qed.

Lemma sku_conflict_false (db : database) (self_id : Z) (s : string) :
  sku_conflict db self_id s = false
  ↔ ∀ q, q ∈ db → Product.id q ≠ self_id → Product.sku q ≠ s.
Proof.
  unfold sku_conflict. split.
  - intros Hex q Hq Hid Hsku.
    assert (existsb (λ q, bool_decide (Product.id q ≠ self_id)
                          && bool_decide (Product.sku q = s)) db = true) as Ht.
    { apply existsb_exists. exists q. split; [by apply list_elem_of_In|].
      by rewrite !bool_decide_eq_true_2. }
    congruence.
  - intros Hall. apply not_true_is_false. intros Hex.
    apply existsb_exists in Hex as (q & Hq%list_elem_of_In & Hb).
    apply andb_true_iff in Hb as [Hid%bool_decide_eq_true Hsku%bool_decide_eq_true].
    by apply (Hall q).
Qed.

Lemma store_row_other (p : Product.t) (l : list Product.t) :
  (∀ q, q ∈ l → Product.id q ≠ Product.id p) → store_row p l = l.
Proof.
  intros Hall. unfold store_row. induction l as [|q l IH]; [done|].
  rewrite fmap_cons. rewrite IH by (intros r Hr; apply Hall; by right).
  rewrite bool_decide_eq_false_2; [done|]. apply Hall. left.
Qed.

(** Under the primary key the row with a given key splits the table. *)
Lemma primary_key_split (db : database) (p : Product.t) :
  primary_key db → p ∈ db →
  ∃ l1 l2 : list Product.t,
    db = l1 ++ p :: l2
    ∧ (∀ q, q ∈ l1 → Product.id q ≠ Product.id p)
    ∧ (∀ q, q ∈ l2 → Product.id q ≠ Product.id p).
Proof.
  intros Hpk Hp. apply list_elem_of_split in Hp as (l1 & l2 & ->).
  exists l1, l2. split; [done|].
  unfold primary_key in Hpk. rewrite fmap_app, fmap_cons in Hpk.
  apply NoDup_app in Hpk as (_ & Hdisj & [Hnotin _]%NoDup_cons).
  split.
  - intros q Hq Hid. apply (Hdisj (Product.id q)).
    + apply list_elem_of_fmap. eauto.
    + rewrite Hid. left.
  - intros q Hq Hid. apply Hnotin. rewrite <- Hid.
    apply list_elem_of_fmap. eauto.
Qed.

Lemma store_row_split (l1 l2 : list Product.t) (p p' : Product.t) :
  Product.id p' = Product.id p →
  (∀ q, q ∈ l1 → Product.id q ≠ Product.id p) →
  (∀ q, q ∈ l2 → Product.id q ≠ Product.id p) →
  store_row p' (l1 ++ p :: l2) = l1 ++ p' :: l2.
Proof.
  intros Hid H1 H2.
  assert (store_row p' l1 = l1) as E1
    by (apply store_row_other; intros q Hq; rewrite Hid; by apply H1).
  assert (store_row p' l2 = l2) as E2
    by (apply store_row_other; intros q Hq; rewrite Hid; by apply H2).
  unfold store_row in *. rewrite fmap_app, fmap_cons, E1, E2.
  by rewrite bool_decide_eq_true_2.
Qed.

Lemma filter_all {A} (P : A → Prop) `{∀ x, Decision (P x)} (l : list A) :
  (∀ x, x ∈ l → P x) → filter P l = l.
Proof.
  induction l as [|x l IH]; intros Hall; [done|].
  rewrite filter_cons_True by (apply Hall; left).
  rewrite IH; [done|]. intros y Hy. apply Hall. by right.
Qed.

Lemma delete_commit_split (l1 l2 : list Product.t) (p : Product.t) :
  (∀ q, q ∈ l1 → Product.id q ≠ Product.id p) →
  (∀ q, q ∈ l2 → Product.id q ≠ Product.id p) →
  delete_commit p (l1 ++ p :: l2) = l1 ++ l2.
Proof.
  intros H1 H2. unfold delete_commit.
  rewrite filter_app, filter_cons_False by (intros Hne; by apply Hne).
  f_equal; apply filter_all; [exact H1 | exact H2].
Qed.

Lemma NoDup_replace_middle {A} (l1 l2 : list A) (x y : A) :
  NoDup (l1 ++ x :: l2) → y ∉ l1 → y ∉ l2 → NoDup (l1 ++ y :: l2).
Proof.
  intros (H1 & Hdisj & [Hx H2]%NoDup_cons)%NoDup_app Hy1 Hy2.
  apply NoDup_app. split_and!; [done| |by apply NoDup_cons].
  intros z Hz1 [->|Hz2]%elem_of_cons; [done|].
  apply (Hdisj z Hz1). by right.
Qed.

Section constraints.
Context `{PyStr} `{PyFloat}.
Implicit Types (db : database) (p q : Product.t) (form : form_data).

Lemma unique_sku_sample : unique_sku sample.
Proof.
  unfold unique_sku. simpl.
  apply NoDup_ListNoDup. repeat constructor; simpl; intuition discriminate.
Qed.

Lemma unique_sku_insert db p :
  unique_sku db → sku_conflict db (next_id db) (Product.sku p) = false →
  unique_sku (db ++ [p]).
Proof.
  unfold unique_sku. intros Hdb Hc. rewrite fmap_app.
  apply NoDup_app. split_and!; [done| |apply NoDup_singleton].
  intros s [q [-> Hq]]%list_elem_of_fmap Hs%list_elem_of_singleton.
  rewrite sku_conflict_false in Hc. apply (Hc q Hq); [|done].
  apply next_id_fresh in Hq. lia.
Qed.

Lemma unique_sku_store_row db p p' :
  primary_key db → unique_sku db → p ∈ db →
  Product.id p' = Product.id p →
  sku_conflict db (Product.id p) (Product.sku p') = false →
  unique_sku (store_row p' db).
Proof.
  intros Hpk Hsku Hp Hid Hc.
  destruct (primary_key_split db p Hpk Hp) as (l1 & l2 & -> & H1 & H2).
  rewrite store_row_split by done.
  rewrite sku_conflict_false in Hc.
  unfold unique_sku in *. rewrite fmap_app, fmap_cons in *.
  eapply NoDup_replace_middle; [exact Hsku| |];
    intros [q [Hs Hq]]%list_elem_of_fmap; apply (Hc q); try done.
  - apply elem_of_app. by left.
  - by apply H1.
  - apply elem_of_app. right. by right.
  - by apply H2.
Qed.

Lemma unique_sku_delete db p : unique_sku db → unique_sku (delete_commit p db).
Proof.
  unfold unique_sku, delete_commit. intros Hdb.
  apply (sublist_NoDup _ _ Hdb), fmap_sublist, sublist_filter.
Qed.

Lemma sku_conflict_self db p :
  primary_key db → unique_sku db → p ∈ db →
  sku_conflict db (Product.id p) (Product.sku p) = false.
Proof.
  intros Hpk Hsku Hp. apply sku_conflict_false. intros q Hq Hid Hs.
  apply Hid. f_equal.
  apply list_elem_of_lookup in Hp as [i Hi].
  apply list_elem_of_lookup in Hq as [j Hj].
  assert (j = i) as ->; [|congruence].
  eapply NoDup_lookup; [exact Hsku| |].
  - by rewrite list_lookup_fmap, Hj.
  - by rewrite list_lookup_fmap, Hi, Hs.
Qed.

Lemma unique_sku_handle req db :
  primary_key db → unique_sku db → unique_sku (handle req db).
Proof.
  intros Hpk Hsku. destruct req as [m form|i m form|i|i m form|]; simpl.
  - unfold add_product. destruct m; [done|].
    destruct (product_fields form) as [[[[[[s n] d] pr] st] th]|]; [|done].
    simpl. destruct (insert_commit _ db) as [[]|db'] eqn:Hc; [done|done|].
    apply insert_commit_inr in Hc as [-> Hc].
    apply check_row_None in Hc as (_ & _ & _ & Hc).
    by apply unique_sku_insert.
  - unfold edit_product. destruct (get_or_404 db i) as [p|] eqn:Hget; [|done].
    destruct m; [done|].
    destruct (product_fields form) as [[[[[[s n] d] pr] st] th]|]; [|done].
    simpl. destruct (update_commit _ db) as [[]|db'] eqn:Hc; [done|done|].
    apply update_commit_inr in Hc as [-> Hc].
    apply check_row_None in Hc as (_ & _ & _ & Hc).
    apply get_or_404_Some in Hget as [Hp _].
    by apply (unique_sku_store_row db p).
  - unfold delete_product. destruct (get_or_404 db i) as [p|]; [|done].
    by apply unique_sku_delete.
  - unfold adjust_stock. destruct (get_or_404 db i) as [p|] eqn:Hget; [|done].
    destruct m; [done|]. destruct (int_or _ _); [|done].
    simpl. destruct (sqlite_integer _); [|done].
    apply get_or_404_Some in Hget as [Hp _].
    apply (unique_sku_store_row db p); try done.
    simpl. by apply sku_conflict_self.
  - unfold init_db. case_bool_decide; [apply unique_sku_sample | done].
Qed.

End constraints.

(** The two constraints of the table, unique [id] and unique [sku], hold
    after every sequence of requests when they hold before it: no handler
    stores a second row with a key or a SKU that is in use. *)
Theorem table_constraints_preserved `{PyStr} `{PyFloat} (reqs : list request)
    (db : database) :
  primary_key db → unique_sku db →
  primary_key (run reqs db) ∧ unique_sku (run reqs db).
Proof.
  unfold run. revert db.
  induction reqs as [|req reqs IH]; intros db Hpk Hsku; simpl; [done|].
  apply IH; [by apply primary_key_handle | by apply unique_sku_handle].
Qed.

Lemma table_constraints_preserved_witness :
  unique_sku
    (run [AddProduct POST {[ "sku" := "DBR-004"; "name" := "Sugar (1kg)";
                             "description" := ""; "price" := "0.0";
                             "stock" := "7"; "reorder_threshold" := "5" ]};
          EditProduct 1 POST {[ "sku" := "DBR-004"; "name" := "Espresso";
                                "description" := ""; "price" := "250.0";
                                "stock" := "20"; "reorder_threshold" := "5" ]};
          DeleteProduct 2]
         initial_db).
Proof.
  refine (proj2 (table_constraints_preserved _ initial_db _ _)).
  - apply NoDup_ListNoDup. repeat constructor; simpl; intuition lia.
  - apply NoDup_ListNoDup. repeat constructor; simpl; intuition discriminate.
Defined.



Section handlers.
Context `{PyStr} `{PyFloat}.
Implicit Types (db : database) (p q : Product.t) (form : form_data).

(** The commit of an edited row that passes all checks. *)
Lemma update_commit_split (l1 l2 : list Product.t) p p' :
  Product.id p' = Product.id p →
  (∀ q, q ∈ l1 → Product.id q ≠ Product.id p) →
  (∀ q, q ∈ l2 → Product.id q ≠ Product.id p) →
  sqlite_integer (Product.stock p') = true →
  sqlite_integer (Product.reorder_threshold p') = true →
  PrimFloat.is_nan (Product.price p') = false →
  (∀ q, q ∈ l1 ++ p :: l2 → Product.id q ≠ Product.id p →
        Product.sku q ≠ Product.sku p') →
  update_commit p' (l1 ++ p :: l2) = inr (l1 ++ p' :: l2).
Proof.
  intros Hid H1 H2 Hstock Hthresh Hnan Hfree. unfold update_commit.
  rewrite check_row_ok; try done.
  - by rewrite store_row_split.
  - apply sku_conflict_false. by rewrite Hid.
Qed.

(** An edit whose SKU, once stripped, is held by another product leaves
    the table as it was; when the form is readable and its stock and
    reorder threshold are 64-bit integers, the response is the redirect
    back to the edit page with the message "SKU must be unique.". *)
Theorem edit_duplicate_sku_rejected (product_id : Z) (method : http_method)
    form db (s : string) p q :
  get_or_404 db product_id = Some p →
  form !! "sku" = Some s →
  q ∈ db → Product.id q ≠ product_id → Product.sku q = strip s →
  (edit_product product_id method form db).2 = db
  ∧ (∀ (sku name desc : string) (price : float) (stock thresh : Z),
       product_fields form = Some (sku, name, desc, price, stock, thresh) →
       sqlite_integer stock = true → sqlite_integer thresh = true →
       edit_product product_id POST form db
       = (Redirect "edit_product" "SKU must be unique.", db)).
Proof.
  intros Hget Hs Hq Hid Hsku.
  apply get_or_404_Some in Hget as Hp. destruct Hp as [_ Hpid].
  assert (∀ sku name desc price stock thresh,
            product_fields form = Some (sku, name, desc, price, stock, thresh) →
            sku_conflict db (Product.id p) sku = true) as Hconflict.
  { intros sku name desc price stock thresh Hf.
    apply product_fields_sku in Hf. rewrite Hs in Hf. injection Hf as <-.
    apply (sku_conflict_true db _ _ q); [done|congruence|done]. }
  split.
  - unfold edit_product. rewrite Hget. destruct method; [done|].
    destruct (product_fields form) as [[[[[[sku name] desc] price] stock] thresh]|] eqn:Hf;
      [|done].
    simpl. destruct (update_commit _ db) as [[]|db'] eqn:Hc; [done|done|].
    apply update_commit_inr in Hc as [_ Hc]. apply check_row_None in Hc.
    simpl in Hc. rewrite (Hconflict _ _ _ _ _ _ eq_refl) in Hc.
    by destruct Hc as (_ & _ & _ & ?).
  - intros sku name desc price stock thresh Hf Hstock Hthresh.
    unfold edit_product. rewrite Hget, Hf. simpl.
    unfold update_commit, check_row. simpl.
    rewrite Hstock, Hthresh, (Hconflict _ _ _ _ _ _ Hf). simpl.
    by rewrite orb_true_r.
Qed.



(** An edit whose price, stock and reorder threshold fields are missing
    or empty stores the defaults in their place: the product's price
    becomes 0.0, its stock 0 and its reorder threshold 5, whatever they
    were. *)
Theorem blank_numeric_fields_take_defaults (product_id : Z) form db p
    (s n d : string) :
  primary_key db →
  get_or_404 db product_id = Some p →
  form !! "sku" = Some s → form !! "name" = Some n →
  form !! "description" = Some d →
  (form !! "price" = None ∨ form !! "price" = Some "") →
  (form !! "stock" = None ∨ form !! "stock" = Some "") →
  (form !! "reorder_threshold" = None ∨ form !! "reorder_threshold" = Some "") →
  (∀ q, q ∈ db → Product.id q ≠ product_id → Product.sku q ≠ strip s) →
  ∃ l1 l2 : list Product.t,
    db = l1 ++ p :: l2
    ∧ edit_product product_id POST form db
      = (Redirect "list_products" "Product updated.",
         l1 ++ Product.mk product_id (strip s) (strip n) (Some (strip d))
                 0%float 0 5 :: l2).
Proof.
  intros Hpk Hget Hs Hn Hd Hprice Hstock Hthresh Hfree.
  assert (product_fields form = Some (strip s, strip n, strip d, 0%float, 0, 5)%Z)
    as Hf.
  { unfold product_fields. rewrite Hs, Hn, Hd. simpl.
    by destruct Hprice as [-> | ->], Hstock as [-> | ->], Hthresh as [-> | ->]. }
  apply get_or_404_Some in Hget as Hp. destruct Hp as [Hp Hid].
  destruct (primary_key_split db p Hpk Hp) as (l1 & l2 & -> & H1 & H2).
  exists l1, l2. split; [done|].
  unfold edit_product. rewrite Hget, Hf. simpl.
  rewrite (update_commit_split l1 l2 p) by (simpl; try done; by rewrite Hid).
  by rewrite Hid.
Qed.

(** Deleting an existing product removes exactly its row and keeps the
    others in their order; the key is then unknown. *)
Theorem delete_product_removes_row (product_id : Z) db p :
  primary_key db →
  get_or_404 db product_id = Some p →
  ∃ l1 l2 : list Product.t,
    db = l1 ++ p :: l2
    ∧ delete_product product_id db
      = (Redirect "list_products" "Product deleted.", l1 ++ l2)
    ∧ get_or_404 (l1 ++ l2) product_id = None.
Proof.
  intros Hpk Hget.
  apply get_or_404_Some in Hget as Hp. destruct Hp as [Hp Hid].
  destruct (primary_key_split db p Hpk Hp) as (l1 & l2 & -> & H1 & H2).
  exists l1, l2. split; [done|].
  unfold delete_product. rewrite Hget.
  rewrite delete_commit_split by done. split; [done|].
  apply get_or_404_None. intros q [Hq|Hq]%elem_of_app; rewrite <- Hid; auto.
Qed.

(** A key below 2^63 that no row carries gives the 404 response from the
    edit, the delete and the adjust routes, for every method and form,
    and the table is not touched. *)
Theorem unknown_product_not_found (product_id : Z) (method : http_method) form db :
  (product_id < 2 ^ 63)%Z →
  (∀ q, q ∈ db → Product.id q ≠ product_id) →
  edit_product product_id method form db = (NotFound, db)
  ∧ delete_product product_id db = (NotFound, db)
  ∧ adjust_stock product_id method form db = (NotFound, db).
Proof.
  intros Hfits Hnone%get_or_404_None.
  unfold edit_product, delete_product, adjust_stock, no_such_product.
  rewrite Hnone. by rewrite (proj2 (Z.ltb_lt _ _) Hfits).
Qed.

(** The table changes only with the success redirect to the product
    list: a request answered by a page, a 404, a server error or the
    redirect back to the form leaves the table as it was. *)
Theorem table_changes_only_on_success (product_id : Z) (method : http_method)
    form db :
  ((add_product method form db).2 ≠ db →
   (add_product method form db).1 = Redirect "list_products" "Product added.")
  ∧ ((edit_product product_id method form db).2 ≠ db →
     (edit_product product_id method form db).1
     = Redirect "list_products" "Product updated.")
  ∧ ((delete_product product_id db).2 ≠ db →
     (delete_product product_id db).1
     = Redirect "list_products" "Product deleted.")
  ∧ ((adjust_stock product_id method form db).2 ≠ db →
     ∃ flashed : string,
       (adjust_stock product_id method form db).1
       = Redirect "list_products" flashed).
Proof.
  split_and!.
  - unfold add_product. destruct method; [done|].
    destruct (product_fields form) as [[[[[[s n] d] pr] st] th]|]; [|done].
    simpl. by destruct (insert_commit _ _) as [[]|].
  - unfold edit_product. destruct (get_or_404 db product_id); [|done].
    destruct method; [done|].
    destruct (product_fields form) as [[[[[[s n] d] pr] st] th]|]; [|done].
    simpl. by destruct (update_commit _ _) as [[]|].
  - unfold delete_product. by destruct (get_or_404 db product_id).
  - unfold adjust_stock. destruct (get_or_404 db product_id); [|done].
    destruct method; [done|]. destruct (int_or _ _); [|done].
    simpl. destruct (sqlite_integer _); [|done]. simpl. eauto.
Qed.

End handlers.

Lemma edit_duplicate_sku_rejected_witness :
  edit_product 1 POST
    {[ "sku" := "DBR-002 "; "name" := "Espresso Beans 500g"; "description" := "";
       "price" := "250.0"; "stock" := "20"; "reorder_threshold" := "5" ]}
    sample
  = (Redirect "edit_product" "SKU must be unique.", sample).
Proof.
  refine (proj2 (edit_duplicate_sku_rejected 1 POST _ sample "DBR-002 "
                   (Product.mk 1 "DBR-001" "Espresso Beans 250g" (Some "Dark roast")
                      250%float 20 5)
                   milk _ _ _ _ _)
            "DBR-002" "Espresso Beans 500g" "" 250%float 20 5 _ _ _).
  - reflexivity.
  - vm_compute; reflexivity.
  - right; left.
  - simpl; lia.
  - vm_compute; reflexivity.
  - vm_compute; reflexivity.
  - reflexivity.
  - reflexivity.
Defined.



Lemma blank_numeric_fields_take_defaults_witness :
  (edit_product 2 POST
     {[ "sku" := "DBR-002"; "name" := "Milk (1L)"; "description" := "Fresh milk";
        "price" := ""; "stock" := "" ]}
     sample).1
  = Redirect "list_products" "Product updated.".
Proof.
  destruct (blank_numeric_fields_take_defaults 2
              {[ "sku" := "DBR-002"; "name" := "Milk (1L)";
                 "description" := "Fresh milk"; "price" := ""; "stock" := "" ]}
              sample milk "DBR-002" "Milk (1L)" "Fresh milk"
              primary_key_sample eq_refl)
    as (l1 & l2 & _ & Hedit).
  - vm_compute; reflexivity.
  - vm_compute; reflexivity.
  - vm_compute; reflexivity.
  - right. vm_compute; reflexivity.
  - right. vm_compute; reflexivity.
  - left. vm_compute; reflexivity.
  - intros q Hq Hid.
    apply list_elem_of_In in Hq. simpl in Hq.
    destruct Hq as [<-|[<-|[<-|[]]]]; simpl in *; try discriminate. lia.
  - by rewrite Hedit.
Defined.

Lemma delete_product_removes_row_witness :
  get_or_404 (delete_product 2 sample).2 2 = None
  ∧ length (delete_product 2 sample).2 = 2%nat.
Proof.
  destruct (delete_product_removes_row 2 sample milk primary_key_sample eq_refl)
    as (l1 & l2 & Hsplit & Hdel & Hget).
  rewrite Hdel. split; [exact Hget|].
  assert (length sample = length (l1 ++ milk :: l2)) as Hlen by (by rewrite <- Hsplit).
  simpl. rewrite length_app in Hlen. rewrite length_app. simpl in Hlen. lia.
Defined.

Lemma unknown_product_not_found_witness :
  adjust_stock 9 POST {[ "adjust" := "5" ]} sample = (NotFound, sample).
Proof.
  apply (unknown_product_not_found 9 POST {[ "adjust" := "5" ]} sample);
    [reflexivity|].
  intros q Hq. apply list_elem_of_In in Hq. simpl in Hq.
  destruct Hq as [<-|[<-|[<-|[]]]]; simpl; lia.
Defined.

Lemma table_changes_only_on_success_witness :
  (delete_product 2 sample).1 = Redirect "list_products" "Product deleted.".
Proof.
  apply (proj1 (proj2 (proj2
           (table_changes_only_on_success 2 GET ∅ sample)))).
  intros Hsame. apply (f_equal length) in Hsame. vm_compute in Hsame. lia.
Defined.

(** ** Stock adjustments in sequence and the dashboard total *)

Lemma store_row_store_row (p1 p2 : Product.t) (db : database) :
  Product.id p1 = Product.id p2 →
  store_row p2 (store_row p1 db) = store_row p2 db.
Proof.
  intros Hid. unfold store_row. rewrite <- list_fmap_compose.
  apply list_fmap_ext. intros i q _. simpl.
  destruct (decide (Product.id q = Product.id p1)) as [Hq|Hq].
  - rewrite (bool_decide_eq_true_2 (Product.id q = Product.id p1)) by done.
    rewrite (bool_decide_eq_true_2 (Product.id p1 = Product.id p2)) by done.
    by rewrite bool_decide_eq_true_2 by congruence.
  - by rewrite (bool_decide_eq_false_2 (Product.id q = Product.id p1)) by done.
Qed.

(** An adjustment whose result the store can hold is written. *)
Lemma adjust_stock_stored `{PyStr} (product_id : Z) (form : form_data)
    (db : database) (p : Product.t) (delta : Z) :
  get_or_404 db product_id = Some p →
  int_or (form !! "adjust") 0 = Some delta →
  (Z.max 0 (Product.stock p + delta) < 2 ^ 63)%Z →
  (adjust_stock product_id POST form db).2
  = store_row (set_stock (Z.max 0 (Product.stock p + delta)) p) db.
Proof.
  intros Hget Hadj Hfits. unfold adjust_stock. rewrite Hget, Hadj. simpl.
  by rewrite (proj2 (sqlite_integer_true _)) by lia.
Qed.

(** Two adjustments in a row whose results the store can hold: the
    stock is clamped after each one, so it ends at
    [max(0, max(0, stock + d1) + d2)]; when the first adjustment does not
    go below zero the two leave the same table as one adjustment by
    [d1 + d2]. *)
Theorem adjust_stock_twice `{PyStr} (product_id : Z)
    (form1 form2 form12 : form_data) (db : database) (p : Product.t)
    (d1 d2 : Z) :
  get_or_404 db product_id = Some p →
  int_or (form1 !! "adjust") 0 = Some d1 →
  int_or (form2 !! "adjust") 0 = Some d2 →
  int_or (form12 !! "adjust") 0 = Some (d1 + d2)%Z →
  (Z.max 0 (Product.stock p + d1) < 2 ^ 63)%Z →
  (Z.max 0 (Z.max 0 (Product.stock p + d1) + d2) < 2 ^ 63)%Z →
  Product.stock <$>
    get_or_404
      (adjust_stock product_id POST form2
         (adjust_stock product_id POST form1 db).2).2 product_id
  = Some (Z.max 0 (Z.max 0 (Product.stock p + d1) + d2))
  ∧ ((0 ≤ Product.stock p + d1)%Z →
     (adjust_stock product_id POST form2
        (adjust_stock product_id POST form1 db).2).2
     = (adjust_stock product_id POST form12 db).2).
Proof.
  intros Hget H1 H2 H12 Hfits1 Hfits2.
  apply get_or_404_Some in Hget as Hp. destruct Hp as [_ Hid].
  rewrite (adjust_stock_stored product_id form1 db p d1) by done.
  assert (get_or_404 (store_row (set_stock (Z.max 0 (Product.stock p + d1)) p) db)
            product_id
          = Some (set_stock (Z.max 0 (Product.stock p + d1)) p)) as Hget1
    by (by apply (get_or_404_store_row db product_id p)).
  rewrite (adjust_stock_stored product_id form2 _ _ d2 Hget1 H2) by done.
  rewrite store_row_store_row by done. simpl. split.
  - by erewrite get_or_404_store_row.
  - intros Hnonneg.
    rewrite (adjust_stock_stored product_id form12 db p (d1 + d2)) by (done || lia).
    f_equal. unfold set_stock. simpl. f_equal. lia.
Qed.

Lemma adjust_stock_twice_witness :
  (adjust_stock 2 POST {[ "adjust" := "-4" ]}
     (adjust_stock 2 POST {[ "adjust" := "-3" ]} sample).2).2
  = (adjust_stock 2 POST {[ "adjust" := "-7" ]} sample).2.
Proof.
  refine (proj2 (adjust_stock_twice 2 {[ "adjust" := "-3" ]} {[ "adjust" := "-4" ]}
                   {[ "adjust" := "-7" ]} sample milk (-3) (-4) _ _ _ _ _ _) _);
    first [ vm_compute; reflexivity | simpl; lia ].
Defined.

Lemma total_items_acc (acc : Z) (l : list Product.t) :
  foldl (λ acc p, acc + Product.stock p)%Z acc l = (acc + total_items l)%Z.
Proof.
  unfold total_items. revert acc.
  induction l as [|p l IH]; intros acc; simpl; [lia|].
  rewrite (IH (acc + Product.stock p)%Z), (IH (0 + Product.stock p)%Z). lia.
Qed.

Lemma total_items_cons (p : Product.t) (l : list Product.t) :
  total_items (p :: l) = (Product.stock p + total_items l)%Z.
Proof. unfold total_items at 1. simpl. by rewrite total_items_acc. Qed.

Lemma total_items_app (l1 l2 : list Product.t) :
  total_items (l1 ++ l2) = (total_items l1 + total_items l2)%Z.
Proof.
  unfold total_items at 1. rewrite foldl_app. fold (total_items l1).
  by rewrite total_items_acc.
Qed.

(** The dashboard's total of items follows the operations on one
    product: an adjustment whose result the store can hold replaces the
    product's stock by the clamped one in the total, a delete takes the
    product's stock out of it. *)
Theorem total_items_follows_stock `{PyStr} (product_id : Z) (form : form_data)
    (db : database) (p : Product.t) (delta : Z) :
  primary_key db →
  get_or_404 db product_id = Some p →
  int_or (form !! "adjust") 0 = Some delta →
  (Z.max 0 (Product.stock p + delta) < 2 ^ 63)%Z →
  total_items (adjust_stock product_id POST form db).2
  = (total_items db - Product.stock p + Z.max 0 (Product.stock p + delta))%Z
  ∧ total_items (delete_product product_id db).2
    = (total_items db - Product.stock p)%Z.
Proof.
  intros Hpk Hget Hadj Hfits.
  rewrite (adjust_stock_stored product_id form db p delta) by done.
  apply get_or_404_Some in Hget as Hp. destruct Hp as [Hp Hid].
  unfold delete_product. rewrite Hget. simpl.
  destruct (primary_key_split db p Hpk Hp) as (l1 & l2 & -> & H1 & H2).
  rewrite store_row_split, delete_commit_split by done.
  rewrite !total_items_app, !total_items_cons. simpl. lia.
Qed.

Lemma total_items_follows_stock_witness :
  total_items sample = 230
  ∧ total_items (adjust_stock 2 POST {[ "adjust" := "-50" ]} sample).2 = 220
  ∧ total_items (delete_product 2 sample).2 = 220.
Proof.
  split; [reflexivity|].
  refine (total_items_follows_stock 2 {[ "adjust" := "-50" ]} sample milk (-50)
            primary_key_sample _ _ _);
    first [ vm_compute; reflexivity | simpl; lia ].
Defined.

(** ** More on the CSV export *)

(** When neither the temporary file nor the reference copy is held open
    by another program, the export returns a page: the "Cannot update
    CSV" page exactly when [inventory.csv] is held open.  In both cases
    the temporary file is gone afterwards, no file other than
    [inventory.csv], the reference copy and the temporary file is
    written, and the [exports] directory and the open files are as
    before. *)
Theorem export_csv_touches_only_its_files `{PyFloat} (db : database)
    (fs : filesystem) :
  temp_filename ∉ held_open fs →
  LAST_CSV_PATH ∉ held_open fs →
  ∃ (r : export_response) (fs' : filesystem),
    export_csv db fs = Some (r, fs')
    ∧ (r = CannotUpdateCsv ↔ csv_filename ∈ held_open fs)
    ∧ read_file temp_filename fs' = None
    ∧ (∀ path : string,
         path ≠ temp_filename → path ≠ csv_filename → path ≠ LAST_CSV_PATH →
         read_file path fs' = read_file path fs)
    ∧ exports fs' = exports fs
    ∧ held_open fs' = held_open fs.
Proof.
  intros _ _.
  destruct (decide (csv_filename ∈ held_open fs)) as [Hlocked|Hfree].
  - eexists _, _. split; [by apply export_csv_locked|].
    unfold read_file. simpl. split_and!; try done.
    + by rewrite lookup_delete_eq.
    + intros path Ht _ _. rewrite lookup_delete_ne by done.
      by rewrite lookup_insert_ne.
  - eexists _, _. split; [by apply export_csv_unlocked|].
    unfold read_file. simpl. split_and!; try done.
    + rewrite (lookup_insert_ne _ LAST_CSV_PATH temp_filename) by done.
      rewrite (lookup_insert_ne _ csv_filename temp_filename) by done.
      by rewrite lookup_delete_eq.
    + intros path Ht Hc Hl.
      rewrite (lookup_insert_ne _ LAST_CSV_PATH path) by done.
      rewrite (lookup_insert_ne _ csv_filename path) by done.
      rewrite lookup_delete_ne by done. by rewrite lookup_insert_ne.
Qed.

Lemma export_csv_touches_only_its_files_witness :
  ∃ fs' : filesystem,
    export_csv sample locked_fs = Some (CannotUpdateCsv, fs')
    ∧ read_file temp_filename fs' = None.
Proof.
  assert (∀ path : string, path ≠ csv_filename → path ∉ held_open locked_fs)
    as Hfree.
  { intros path Hne Hin. unfold locked_fs in Hin. simpl in Hin.
    by apply elem_of_singleton in Hin. }
  destruct (export_csv_touches_only_its_files sample locked_fs)
    as (r & fs' & Hexport & Hfail & Htemp & _).
  - by apply Hfree.
  - by apply Hfree.
  - exists fs'. split; [|exact Htemp].
    rewrite Hexport. do 2 f_equal. apply Hfail.
    unfold locked_fs; simpl; apply elem_of_singleton; reflexivity.
Defined.

(** *** The exported text tells two stock levels apart *)

Lemma append_cons (c : ascii) (s t : string) :
  String c s +:+ t = String c (s +:+ t).
Proof. reflexivity. Qed.

Lemma append_nil_r (s : string) : s +:+ "" = s.
Proof. induction s as [|c s IH]; [done|]. by rewrite append_cons, IH. Qed.

Lemma append_assoc (s t u : string) : (s +:+ t) +:+ u = s +:+ (t +:+ u).
Proof. induction s as [|c s IH]; [done|]. by rewrite !append_cons, IH. Qed.

Lemma length_append (s t : string) :
  String.length (s +:+ t) = (String.length s + String.length t)%nat.
Proof.
  induction s as [|c s IH]; [done|]. rewrite append_cons. simpl. by rewrite IH.
Qed.

Lemma append_inj_length (s1 s2 t1 t2 : string) :
  String.length s1 = String.length s2 →
  s1 +:+ t1 = s2 +:+ t2 → s1 = s2.
Proof.
  revert s2. induction s1 as [|c s1 IH]; intros [|c2 s2] Hlen Heq;
    try done.
  rewrite !append_cons in Heq. injection Heq as -> Heq.
  f_equal. apply IH; [by injection Hlen | done].
Qed.

Lemma concat_empty_cons (x : string) (l : list string) :
  String.concat "" (x :: l) = x +:+ String.concat "" l.
Proof. destruct l; simpl; [by rewrite append_nil_r | done]. Qed.

Lemma writerows_cons (r : row) (rows : list row) :
  writerows (r :: rows) = writerow r +:+ writerows rows.
Proof. unfold writerows. rewrite fmap_cons. apply concat_empty_cons. Qed.

Lemma writerows_app (rows1 rows2 : list row) :
  writerows (rows1 ++ rows2) = writerows rows1 +:+ writerows rows2.
Proof.
  induction rows1 as [|r rows1 IH]; [done|].
  rewrite <- app_comm_cons, !writerows_cons, IH. by rewrite append_assoc.
Qed.

Lemma starts_with_LF_app (s t : string) :
  starts_with_LF t = false → starts_with_LF (s +:+ t) = starts_with_LF s.
Proof. by destruct s. Qed.

(** Line ends are translated piecewise when the second piece does not
    start with LF. *)
Lemma universal_newlines_app (s t : string) :
  starts_with_LF t = false →
  universal_newlines (s +:+ t) = universal_newlines s +:+ universal_newlines t.
Proof.
  intros Ht. induction s as [|c s IH]; [done|].
  rewrite append_cons. cbn [universal_newlines].
  rewrite starts_with_LF_app, IH by done.
  destruct (Ascii.eqb c "013"); [|done]. by destruct (starts_with_LF s).
Qed.

Lemma universal_newlines_digits (d : Decimal.uint) :
  universal_newlines (NilEmpty.string_of_uint d) = NilEmpty.string_of_uint d.
Proof.
  induction d as [|d IH|d IH|d IH|d IH|d IH|d IH|d IH|d IH|d IH|d IH];
    [done|..]; cbn [NilEmpty.string_of_uint universal_newlines];
    change (Ascii.eqb _ "013") with false; cbv iota; by rewrite IH.
Qed.

Lemma needs_quotes_digits (d : Decimal.uint) :
  needs_quotes (NilEmpty.string_of_uint d) = false.
Proof.
  unfold needs_quotes.
  induction d as [|d IH|d IH|d IH|d IH|d IH|d IH|d IH|d IH|d IH|d IH];
    [done|..]; cbn [NilEmpty.string_of_uint string_existsb]; by rewrite IH.
Qed.

(** How [str(n)] is spelt: an optional minus sign and a non-empty run of
    digits. *)
Lemma str_int_spelling (n : Z) :
  ∃ (sign : string) (d : Decimal.uint),
    str_int n = sign +:+ NilEmpty.string_of_uint d
    ∧ (sign = "" ∨ sign = "-") ∧ d ≠ Decimal.Nil.
Proof.
  destruct n as [|p|p]; unfold str_int; simpl.
  - exists "", (Decimal.D0 Decimal.Nil). by split_and!; [|left|].
  - exists "", (Pos.to_uint p). rewrite string_of_uint_to_uint.
    split_and!; [done|by left|apply DecimalPos.Unsigned.to_uint_nonnil].
  - exists "-", (Pos.to_uint p). rewrite string_of_uint_to_uint.
    split_and!; [done|by right|apply DecimalPos.Unsigned.to_uint_nonnil].
Qed.

Lemma universal_newlines_str_int (n : Z) (t : string) :
  starts_with_LF t = false →
  universal_newlines (str_int n +:+ t) = str_int n +:+ universal_newlines t.
Proof.
  intros Ht. rewrite universal_newlines_app by done. f_equal.
  destruct (str_int_spelling n) as (sign & d & -> & [-> | ->] & _).
  - apply universal_newlines_digits.
  - change ("-" +:+ NilEmpty.string_of_uint d)
      with (String "-" (NilEmpty.string_of_uint d)).
    cbn [universal_newlines].
    change (Ascii.eqb "-" "013") with false. cbv iota.
    by rewrite universal_newlines_digits.
Qed.

Lemma starts_with_LF_str_int (n : Z) (t : string) :
  starts_with_LF (str_int n +:+ t) = false.
Proof.
  destruct (str_int_spelling n) as (sign & d & -> & [-> | ->] & Hd); [|done].
  by destruct d.
Qed.

Lemma csv_field_str_int (n : Z) : csv_field (str_int n) = str_int n.
Proof.
  unfold csv_field.
  destruct (str_int_spelling n) as (sign & d & -> & [-> | ->] & _).
  - change ("" +:+ NilEmpty.string_of_uint d) with (NilEmpty.string_of_uint d).
    by rewrite needs_quotes_digits.
  - change ("-" +:+ NilEmpty.string_of_uint d)
      with (String "-" (NilEmpty.string_of_uint d)).
    unfold needs_quotes. cbn [string_existsb].
    fold (needs_quotes (NilEmpty.string_of_uint d)).
    by rewrite needs_quotes_digits.
Qed.

Lemma str_int_inj (n m : Z) : str_int n = str_int m → n = m.
Proof.
  intros Heq. apply (f_equal int_of_str) in Heq.
  rewrite !int_of_str_str_int in Heq. congruence.
Qed.

Section stock_in_snapshot.
Context `{PyFloat}.

Lemma inventory_csv_split (l1 l2 : list Product.t) (p : Product.t) :
  inventory_csv (l1 ++ p :: l2)
  = writerows (INVENTORY_HEADER :: (product_row <$> l1))
    +:+ (writerow (product_row p) +:+ writerows (product_row <$> l2)).
Proof.
  unfold inventory_csv. rewrite fmap_app, fmap_cons.
  change (INVENTORY_HEADER :: (product_row <$> l1) ++ product_row p :: (product_row <$> l2))
    with ((INVENTORY_HEADER :: (product_row <$> l1))
          ++ product_row p :: (product_row <$> l2)).
  by rewrite writerows_app, !writerows_cons.
Qed.

Lemma writerow_product_row (p : Product.t) :
  writerow (product_row p)
  = (csv_field (Product.sku p) +:+ ("," +:+ (csv_field (Product.name p) +:+ ",")))
    +:+ (str_int (Product.stock p)
         +:+ ("," +:+ (csv_field (str_float (Product.price p)) +:+ CRLF))).
Proof.
  unfold writerow, product_row. cbn [String.concat fmap list_fmap].
  rewrite csv_field_str_int, !append_assoc. by destruct (Product.sku p).
Qed.

(** The exported text around the stock cell of one product. *)
Lemma snapshot_text_stock_cell (l1 l2 : list Product.t) (p : Product.t) :
  ∃ before after : string,
    ∀ v : Z,
      snapshot_text (l1 ++ set_stock v p :: l2)
      = before +:+ (str_int v +:+ after).
Proof.
  exists (universal_newlines
            (writerows (INVENTORY_HEADER :: (product_row <$> l1))
             +:+ (csv_field (Product.sku p)
                  +:+ ("," +:+ (csv_field (Product.name p) +:+ ","))))),
         (universal_newlines
            ("," +:+ (csv_field (str_float (Product.price p))
                      +:+ (CRLF +:+ writerows (product_row <$> l2))))).
  intros v. unfold snapshot_text.
  rewrite inventory_csv_split, writerow_product_row.
  simpl Product.sku. simpl Product.name. simpl Product.stock. simpl Product.price.
  rewrite <- universal_newlines_str_int by reflexivity.
  rewrite <- universal_newlines_app by apply starts_with_LF_str_int.
  f_equal. by rewrite !append_assoc.
Qed.

Lemma snapshot_text_stock_inj (l1 l2 : list Product.t) (p : Product.t) (v w : Z) :
  snapshot_text (l1 ++ set_stock v p :: l2)
  = snapshot_text (l1 ++ set_stock w p :: l2) →
  v = w.
Proof.
  destruct (snapshot_text_stock_cell l1 l2 p) as (before & after & Htext).
  rewrite !Htext. intros Heq%String.app_inj.
  apply str_int_inj. apply (append_inj_length _ _ after after); [|done].
  apply (f_equal String.length) in Heq. rewrite !length_append in Heq. lia.
Qed.

End stock_in_snapshot.

(** An export made after the stock of one product changed, everything
    else being as at the previous export, reports CHANGES_DETECTED. *)
Theorem export_detects_stock_change `{PyFloat} (l1 l2 : list Product.t)
    (p : Product.t) (v : Z) (fs : filesystem) :
  v ≠ Product.stock p →
  csv_filename ∉ held_open fs →
  ∃ (c : comparison_result) (fs' fs'' : filesystem),
    export_csv (l1 ++ p :: l2) fs = Some (Exported c, fs')
    ∧ export_csv (l1 ++ set_stock v p :: l2) fs'
      = Some (Exported CHANGES_DETECTED, fs'').
Proof.
  intros Hv Hfree. eexists _, _, _.
  split; [by apply export_csv_unlocked|].
  rewrite export_csv_unlocked by done. simpl.
  rewrite lookup_insert_eq.
  rewrite bool_decide_eq_false_2; [done|].
  intros Heq. apply Hv.
  apply (snapshot_text_stock_inj l1 l2 p).
  rewrite Heq. by destruct p.
Qed.

Lemma export_detects_stock_change_witness :
  ∃ fs' fs'' : filesystem,
    export_csv sample empty_fs = Some (Exported FIRST_EXPORT, fs')
    ∧ export_csv (adjust_stock 2 POST {[ "adjust" := "-3" ]} sample).2 fs'
      = Some (Exported CHANGES_DETECTED, fs'').
Proof.
  assert (csv_filename ∉ held_open empty_fs) as Hfree
    by (apply not_elem_of_empty).
  assert (7 ≠ Product.stock milk)%Z as Hv by (simpl; lia).
  destruct (export_detects_stock_change
              [Product.mk 1 "DBR-001" "Espresso Beans 250g" (Some "Dark roast")
                 250%float 20 5]
              [Product.mk 3 "DBR-003" "Cup (12oz)" (Some "Disposable cup")
                 2.5%float 200 50]
              milk 7 empty_fs Hv Hfree)
    as (c & fs' & fs'' & Hfirst & Hsecond).
  exists fs', fs''. split; [|exact Hsecond].
  change (export_csv sample empty_fs = Some (Exported c, fs')) in Hfirst.
  rewrite Hfirst. do 3 f_equal.
  rewrite export_csv_unlocked in Hfirst by done. by injection Hfirst as <- _.
Defined.
